(** * The subscription request handler

    A shallow embedding of [functions/modules/subscription-handler.js]
    ([handleMisubRequest]) and the properties of its request-resolution and
    node-composition pipeline.

    Conventions of the model.
    - A JavaScript string is held as the bytes of its UTF-8 encoding (a
      [string] of the Standard Library), so a string is well-formed Unicode
      text.  A "binary string" (every code unit below 256, what [unescape]
      returns and [btoa] takes) is held as its bytes as well.
    - A value that may be [undefined] or [null] is a [JsOpt].
    - Byte counts are integers, [Z]; JavaScript computes them as doubles,
      which is the same below 2^53.
    - The collaborators whose code lives in other modules
      ([generateCombinedNodeList], [formatBytes], [getCallbackToken]) and
      the platform's [fetch] and [Date] are parameters, collected in
      [Collaborators]; a call of the notification sender is recorded as an
      [Event]. *)

From Stdlib Require Import String Ascii List ZArith Lia Bool DecimalString.
Import ListNotations.
Local Open Scope Z_scope.
Local Open Scope string_scope.

(** ** JavaScript values and string primitives *)

Module JS.

(** A value of type [A] that may be absent in either of JavaScript's two
    ways. *)
Inductive JsOpt (A : Type) : Type :=
| undefined : JsOpt A
| null : JsOpt A
| val (a : A) : JsOpt A.

Arguments undefined {A}.
Arguments null {A}.
Arguments val {A} a.

Definition JsStr : Type := JsOpt string.

(** [!!v] for a string-or-absent value: the empty string is falsy. *)
Definition truthy (v : JsStr) : bool :=
  match v with
  | val s => negb (s =? "")
  | _ => false
  end.

(** [a === b] on string-or-absent values. *)
Definition strict_eq (a b : JsStr) : bool :=
  match a, b with
  | undefined, undefined => true
  | null, null => true
  | val s, val t => (s =? t)
  | _, _ => false
  end.

(** [String(v)], as a template literal or [URLSearchParams.set] applies it. *)
Definition toString (v : JsStr) : string :=
  match v with
  | undefined => "undefined"
  | null => "null"
  | val s => s
  end.

(** [v || d] where [d] is a string. *)
Definition or_else (v : JsStr) (d : string) : string :=
  match v with
  | val s => if s =? "" then d else s
  | _ => d
  end.

(** [o?.field]: [undefined] when [o] is absent. *)
Definition opt_chain {A B : Type} (o : JsOpt A) (f : A -> JsOpt B) : JsOpt B :=
  match o with
  | val a => f a
  | _ => undefined
  end.

Definition LF : string := String "010"%char "".

(** [s.startsWith(p)]. *)
Definition startsWith (s p : string) : bool := String.prefix p s.

(** [s.includes(k)]. *)
Fixpoint includes (s k : string) : bool :=
  String.prefix k s ||
  match s with
  | "" => false
  | String _ r => includes r k
  end.

Definition string_rev (s : string) : string :=
  string_of_list_ascii (rev (list_ascii_of_string s)).

Definition bytes (l : list nat) : string :=
  string_of_list_ascii (map ascii_of_nat l).

Definition lower_ascii (c : ascii) : ascii :=
  let n := nat_of_ascii c in
  if ((65 <=? n) && (n <=? 90))%nat then ascii_of_nat (n + 32) else c.

(** U+212A KELVIN SIGN and U+0130 LATIN CAPITAL LETTER I WITH DOT ABOVE are
    the two characters outside ASCII whose lower case has an ASCII letter:
    [k], and [i] followed by U+0307. *)
Definition KELVIN : string := bytes [226; 132; 170]%nat.
Definition IDOT : string := bytes [196; 176]%nat.
Definition COMBINING_DOT : string := bytes [204; 135]%nat.

(** [s.toLowerCase()].  The letters A-Z and the two characters above are
    mapped; any other letter outside ASCII is left as it is (its lower case
    is again outside ASCII). [skip] counts the bytes of the current
    character still to drop. *)
Fixpoint lower_from (skip : nat) (s : string) : string :=
  match s with
  | "" => ""
  | String c r =>
      match skip with
      | S k => lower_from k r
      | O =>
          if String.prefix KELVIN s then String "k" (lower_from 2 r)
          else if String.prefix IDOT s then
                 String "i" (COMBINING_DOT ++ lower_from 1 r)
          else String (lower_ascii c) (lower_from 0 r)
      end
  end.

Definition toLowerCase (s : string) : string := lower_from 0 s.

(** The characters [trim] strips (WhiteSpace and LineTerminator of the
    language definition), as UTF-8: TAB, LF, VT, FF, CR, SP, U+00A0, U+1680,
    U+2000..U+200A, U+2028, U+2029, U+202F, U+205F, U+3000, U+FEFF. *)
Definition whitespace : list string :=
  map bytes
    [ [9]; [10]; [11]; [12]; [13]; [32]; [194; 160]; [225; 154; 128];
      [226; 128; 128]; [226; 128; 129]; [226; 128; 130]; [226; 128; 131];
      [226; 128; 132]; [226; 128; 133]; [226; 128; 134]; [226; 128; 135];
      [226; 128; 136]; [226; 128; 137]; [226; 128; 138];
      [226; 128; 168]; [226; 128; 169]; [226; 128; 175];
      [226; 129; 159]; [227; 128; 128]; [239; 187; 191] ]%nat.

(** Drop the leading run of the sequences [seqs] from [s]. *)
Fixpoint strip (seqs : list string) (skip : nat) (s : string) : string :=
  match s with
  | "" => ""
  | String _ r =>
      match skip with
      | S k => strip seqs k r
      | O =>
          match find (fun w => String.prefix w s) seqs with
          | Some w => strip seqs (Nat.pred (String.length w)) r
          | None => s
          end
      end
  end.

Definition trimStart (s : string) : string := strip whitespace 0 s.

Definition trimEnd (s : string) : string :=
  string_rev (strip (map string_rev whitespace) 0 (string_rev s)).

(** [s.trim()]. *)
Definition trim (s : string) : string := trimEnd (trimStart s).

(** [s.split(sep)] for a one-character separator. *)
Fixpoint split (sep : ascii) (s : string) : list string :=
  match s with
  | "" => [""]
  | String c r =>
      if Ascii.eqb c sep then "" :: split sep r
      else match split sep r with
           | h :: t => String c h :: t
           | [] => [String c ""]
           end
  end.

(** [l.join(sep)]. *)
Fixpoint join (sep : string) (l : list string) : string :=
  match l with
  | [] => ""
  | [x] => x
  | x :: r => x ++ sep ++ join sep r
  end.

(** [String(n)] for an integer. *)
Definition natToString (n : nat) : string :=
  NilZero.string_of_uint (Nat.to_uint n).

Definition intToString (z : Z) : string :=
  NilZero.string_of_int (Z.to_int z).

Definition hexDigit (n : nat) : ascii :=
  if (n <? 10)%nat then ascii_of_nat (48 + n) else ascii_of_nat (55 + n).

Definition hexValue (c : ascii) : option nat :=
  let n := nat_of_ascii c in
  if ((48 <=? n) && (n <=? 57))%nat then Some (n - 48)%nat
  else if ((65 <=? n) && (n <=? 70))%nat then Some (n - 55)%nat
  else if ((97 <=? n) && (n <=? 102))%nat then Some (n - 87)%nat
  else None.

(** The characters [encodeURIComponent] leaves alone:
    A-Z a-z 0-9 - _ . ! ~ * ' ( ). *)
Definition unreserved (c : ascii) : bool :=
  let n := nat_of_ascii c in
  (((65 <=? n) && (n <=? 90)) || ((97 <=? n) && (n <=? 122))
   || ((48 <=? n) && (n <=? 57))
   || existsb (Nat.eqb n) [45; 95; 46; 33; 126; 42; 39; 40; 41])%nat.

Definition percent (c : ascii) : string :=
  let n := nat_of_ascii c in
  String "%" (String (hexDigit (n / 16)) (String (hexDigit (n mod 16)) "")).

(** [encodeURIComponent(s)]: every byte of the UTF-8 encoding that is not
    an unreserved character becomes [%XX]. *)
Fixpoint encodeURIComponent (s : string) : string :=
  match s with
  | "" => ""
  | String c r =>
      (if unreserved c then String c "" else percent c)
        ++ encodeURIComponent r
  end.

(** [unescape(s)], to a binary string.  [%XX] becomes the byte XX.  The
    [%uXXXX] form gives a code unit, which is a byte only when XXXX is
    below 256: the result is [None] where it is not. *)
Fixpoint unescape_from (skip : nat) (s : string) : option string :=
  match s with
  | "" => Some ""
  | String c r =>
      match skip with
      | S k => unescape_from k r
      | O =>
          match c, r with
          | "%"%char,
            String "u" (String a (String b (String d (String e _)))) =>
              match hexValue a, hexValue b, hexValue d, hexValue e with
              | Some x3, Some x2, Some x1, Some x0 =>
                  if ((x3 =? 0) && (x2 =? 0))%nat then
                    option_map (String (ascii_of_nat (16 * x1 + x0)))
                               (unescape_from 5 r)
                  else None
              | _, _, _, _ =>
                  match r with
                  | String a' (String b' _) =>
                      match hexValue a', hexValue b' with
                      | Some h, Some l =>
                          option_map (String (ascii_of_nat (16 * h + l)))
                                     (unescape_from 2 r)
                      | _, _ => option_map (String c) (unescape_from 0 r)
                      end
                  | _ => option_map (String c) (unescape_from 0 r)
                  end
              end
          | "%"%char, String a (String b _) =>
              match hexValue a, hexValue b with
              | Some h, Some l =>
                  option_map (String (ascii_of_nat (16 * h + l)))
                             (unescape_from 2 r)
              | _, _ => option_map (String c) (unescape_from 0 r)
              end
          | _, _ => option_map (String c) (unescape_from 0 r)
          end
      end
  end.

Definition unescape (s : string) : option string := unescape_from 0 s.

(** The base64 alphabet. *)
Definition b64char (n : nat) : ascii :=
  if (n <? 26)%nat then ascii_of_nat (65 + n)
  else if (n <? 52)%nat then ascii_of_nat (71 + n)
  else if (n <? 62)%nat then ascii_of_nat (n - 4)
  else if (n =? 62)%nat then "+"%char
  else "/"%char.

Definition b64value (c : ascii) : option nat :=
  let n := nat_of_ascii c in
  if ((65 <=? n) && (n <=? 90))%nat then Some (n - 65)%nat
  else if ((97 <=? n) && (n <=? 122))%nat then Some (n - 71)%nat
  else if ((48 <=? n) && (n <=? 57))%nat then Some (n + 4)%nat
  else if (n =? 43)%nat then Some 62%nat
  else if (n =? 47)%nat then Some 63%nat
  else None.

(** [btoa(s)] on a binary string: base64 with padding. *)
Fixpoint btoa (s : string) : string :=
  match s with
  | "" => ""
  | String a "" =>
      let x := nat_of_ascii a in
      String (b64char (x / 4))
        (String (b64char ((x mod 4) * 16)) "==")
  | String a (String b "") =>
      let x := nat_of_ascii a in
      let y := nat_of_ascii b in
      String (b64char (x / 4))
        (String (b64char ((x mod 4) * 16 + y / 16))
           (String (b64char ((y mod 16) * 4)) "="))
  | String a (String b (String c r)) =>
      let x := nat_of_ascii a in
      let y := nat_of_ascii b in
      let z := nat_of_ascii c in
      String (b64char (x / 4))
        (String (b64char ((x mod 4) * 16 + y / 16))
           (String (b64char ((y mod 16) * 4 + z / 64))
              (String (b64char (z mod 64)) (btoa r))))
  end.

(** [atob(s)] on padded base64 text; [None] where [s] is not base64. *)
Fixpoint atob (s : string) : option string :=
  match s with
  | "" => Some ""
  | String a (String b (String c (String d r))) =>
      match b64value a, b64value b with
      | Some x, Some y =>
          let b1 := ascii_of_nat (x * 4 + y / 16) in
          if Ascii.eqb c "=" then
            if Ascii.eqb d "=" && (r =? "") then Some (String b1 "")
            else None
          else
            match b64value c with
            | Some z =>
                let b2 := ascii_of_nat ((y mod 16) * 16 + z / 4) in
                if Ascii.eqb d "=" then
                  if r =? "" then Some (String b1 (String b2 "")) else None
                else
                  match b64value d, atob r with
                  | Some w, Some t =>
                      Some (String b1 (String b2
                        (String (ascii_of_nat ((z mod 4) * 64 + w)) t)))
                  | _, _ => None
                  end
            | None => None
            end
      | _, _ => None
      end
  | _ => None
  end.

(** The idiom [btoa(unescape(encodeURIComponent(s)))]: base64 of the UTF-8
    bytes of [s].  [unescape] gives all the bytes back
    ([unescape_encodeURIComponent] below), so the default is never taken. *)
Definition btoa_utf8 (s : string) : string :=
  match unescape (encodeURIComponent s) with
  | Some b => btoa b
  | None => ""
  end.

End JS.

Import JS.

(** ** URL query parameters and headers *)

Module SearchParams.

(** A [URLSearchParams]: the name-value pairs in the order of the query. *)
Definition t : Type := list (string * string).

(** [params.get(name)]: the first value, or [null]. *)
Fixpoint get (name : string) (params : t) : JsStr :=
  match params with
  | [] => null
  | (n, v) :: r => if n =? name then val v else get name r
  end.

(** [params.has(name)]. *)
Definition has (name : string) (params : t) : bool :=
  existsb (fun p => fst p =? name) params.

(** [params.set(name, value)]: the first pair of that name takes the value
    and the others go; with no such pair, one is appended. *)
Fixpoint set (name value : string) (params : t) : t :=
  match params with
  | [] => [(name, value)]
  | (n, v) :: r =>
      if n =? name then
        (name, value) :: filter (fun p => negb (fst p =? name)) r
      else (n, v) :: set name value r
  end.

End SearchParams.

Module Headers.

(** A [Headers] object: pairs with lower-case names. *)
Definition t : Type := list (string * string).

Definition set (name value : string) (h : t) : t :=
  SearchParams.set (toLowerCase name) value h.

(** [new Headers(init)] or the [headers] of a [Response] init object. *)
Definition ofObject (init : list (string * string)) : t :=
  fold_left (fun h p => set (fst p) (snd p) h) init [].

End Headers.

(** ** Data model *)

Module UserInfo.
Record t : Type := mk
  { upload : option Z; download : option Z; total : option Z }.
End UserInfo.

Module Entry.
(** A stored subscription or manual node.  [enabled] is the truthiness of
    the field; an absent [userInfo] is [None]. *)
Record t : Type := mk
  { id : string;
    url : string;
    name : string;
    enabled : bool;
    userInfo : option UserInfo.t;
    isExpiredNode : bool }.
End Entry.

(** The [prefixSettings] object of a profile, which the handler only hands
    on: its JSON text. *)
Definition PrefixSettings : Type := string.

Module Profile.
Record t : Type := mk
  { id : string;
    customId : JsStr;
    name : string;
    enabled : bool;
    expiresAt : JsStr;
    subscriptions : list string;
    manualNodes : list string;
    subConverter : JsStr;
    subConfig : JsStr;
    prefixSettings : JsOpt PrefixSettings }.
End Profile.

Module Config.
(** The merged settings, [migrateConfigSettings({...defaultSettings,
    ...settings})], as far as the handler reads them. *)
Record t : Type := mk
  { mytoken : JsStr;
    profileToken : JsStr;
    subConverter : JsStr;
    subConfig : JsStr;
    FileName : string }.
End Config.

Module Request.
(** The request as the handler reads it: the parts of [new URL(request.url)]
    and the results of [request.headers.get] for the three headers used. *)
Record t : Type := mk
  { protocol : string;
    host : string;
    hostname : string;
    pathname : string;
    searchParams : SearchParams.t;
    userAgent : JsStr;
    cfConnectingIp : JsStr;
    cfIpCountry : JsStr }.
End Request.

Module Response.
Record t : Type := mk
  { status : Z;
    statusText : string;
    headers : Headers.t;
    body : string }.

(** [response.ok]. *)
Definition ok (r : t) : bool :=
  ((200 <=? status r) && (status r <=? 299))%Z.
End Response.

Module Url.
(** The converter URL under construction: [new URL(href)] and the
    parameters set on it afterwards. *)
Record t : Type := mk { href : string; searchParams : SearchParams.t }.
End Url.

(** What the three storage reads give, after the defaults of lines 44-48. *)
Record Snapshot : Type := mkSnapshot
  { config : Config.t;
    allMisubs : list Entry.t;
    allProfiles : list Profile.t }.

Inductive FetchResult : Type :=
| FetchFailed (message : string)
| Fetched (r : Response.t).

(** The code outside this module and the platform. *)
Record Collaborators : Type := mkCollaborators
  { (** [generateCombinedNodeList(context, config, userAgent, misubs,
        prependedContent, prefixSettings)] of [subscription.js]. *)
    generateCombinedNodeList :
      Request.t -> Config.t -> string -> list Entry.t -> string ->
      JsOpt PrefixSettings -> string;
    (** [formatBytes] of [utils.js]. *)
    formatBytes : Z -> string;
    (** [getCallbackToken(env)] of [utils.js], for the environment of this
        process. *)
    getCallbackToken : string;
    (** [fetch(url, {method: 'GET', headers: {'User-Agent': 'Mozilla/5.0'}})]
        followed by [response.text()]; [FetchFailed] when either throws. *)
    fetch : Url.t -> FetchResult;
    (** The time value of [new Date(s)]; [None] for an invalid date. *)
    dateValue : string -> option Z;
    (** [new Date(s).toLocaleString('zh-CN', {timeZone: 'Asia/Shanghai'})]. *)
    toLocaleString : string -> string }.

(** The side effect of a request:
    [context.waitUntil(sendEnhancedTgNotification(config, title, clientIp,
    additionalData))]. *)
Inductive Event : Type :=
| Notify (cfg : Config.t) (title clientIp additionalData : string).

(** The [return] statement a response comes from. *)
Inductive Exit : Type :=
| InvalidProfileToken   (* line 72 *)
| ProfileNotFound       (* line 78 *)
| InvalidToken          (* line 129 *)
| NotConfigured         (* line 138 *)
| Base64Output          (* line 268 *)
| CallbackOutput        (* line 289 *)
| ConverterOutput       (* line 331 *)
| ConverterError.       (* line 339 *)

(** A handled request: the response, the [return] it comes from, what was
    handed to [context.waitUntil], and the outbound converter requests. *)
Record Outcome : Type := mkOutcome
  { response : Response.t;
    exit : Exit;
    scheduled : list Event;
    fetched : list Url.t }.

(** ** The handler *)

Definition EXPIRED_NODES : list string :=
  [ "ss://YWVzLTI1Ni1nY206MDAwMDAwMDAwMDAwMDAwMA==@127.0.0.1:443#🇨🇳 订阅会员已到期";
    "ss://YWVzLTI1Ni1nY206MDAwMDAwMDAwMDAwMDAwMA==@127.0.0.1:443#🇨🇳 订阅会员已到期";
    "ss://YWVzLTI1Ni1nY206MDAwMDAwMDAwMDAwMDAwMA==@127.0.0.1:443#🇨🇳 请联系客服续费";
    "ss://YWVzLTI1Ni1nY206MDAwMDAwMDAwMDAwMDAwMA==@127.0.0.1:443#🇨🇳 微信 EX3116" ].

(** [array.map((x, index) => f(x, index))]. *)
Fixpoint mapi_from {A B : Type} (i : nat) (f : A -> nat -> B) (l : list A)
  : list B :=
  match l with
  | [] => []
  | x :: r => f x i :: mapi_from (S i) f r
  end.

Definition mapi {A B : Type} (f : A -> nat -> B) (l : list A) : list B :=
  mapi_from 0 f l.

Fixpoint drop (n : nat) (s : string) : string :=
  match n, s with
  | S k, String _ r => drop k r
  | _, _ => s
  end.

(** [url.pathname.replace(/^\/sub\//, '/').split('/').filter(Boolean)]. *)
Definition pathSegments (pathname : string) : list string :=
  let stripped :=
    if String.prefix "/sub/" pathname then String "/" (drop 5 pathname)
    else pathname in
  filter (fun s => negb (s =? "")) (split "/" stripped).

(** Lines 50-61: the token and the profile identifier of a request. *)
Definition resolveToken (req : Request.t) : JsStr * JsStr :=
  match pathSegments (Request.pathname req) with
  | [] => (SearchParams.get "token" (Request.searchParams req), null)
  | [t] => (val t, null)
  | t :: p :: _ => (val t, val p)
  end.

(** [allProfiles.find(p => (p.customId && p.customId === profileIdentifier)
    || p.id === profileIdentifier)]. *)
Definition findProfile (profiles : list Profile.t) (profileIdentifier : JsStr)
  : option Profile.t :=
  find (fun p =>
          (truthy (Profile.customId p)
           && strict_eq (Profile.customId p) profileIdentifier)
          || strict_eq (val (Profile.id p)) profileIdentifier)
       profiles.

(** [x?.trim() !== ''], the test of lines 122, 124 and 303. *)
Definition trimsToNonEmpty (x : JsStr) : bool :=
  negb (strict_eq (opt_chain x (fun s => val (trim s))) (val "")).

(** [!x || x.trim() === ''], the test of line 137. *)
Definition blank (x : JsStr) : bool :=
  negb (truthy x) || (trim (toString x) =? "").

(** What lines 63-135 leave in the handler's variables. *)
Record Selection : Type := mkSelection
  { targetMisubs : list Entry.t;
    subName : string;
    effectiveSubConverter : JsStr;
    effectiveSubConfig : JsStr;
    isProfileExpired : bool }.

Definition expiredEntries : list Entry.t :=
  mapi (fun node index =>
          Entry.mk ("expired-node-" ++ natToString index) node
                   "订阅已到期" false None true)
       EXPIRED_NODES.

(** The filter of lines 109-118. *)
Definition belongsTo (profile : Profile.t) (item : Entry.t) : bool :=
  let isSubscription := startsWith (Entry.url item) "http" in
  let isManualNode := negb isSubscription in
  let belongsToProfile :=
    (isSubscription
     && existsb (String.eqb (Entry.id item)) (Profile.subscriptions profile))
    || (isManualNode
        && existsb (String.eqb (Entry.id item)) (Profile.manualNodes profile))
  in
  Entry.enabled item && belongsToProfile.

(** The reducer of lines 219-226. *)
Definition addRemaining (acc : Z) (sub : Entry.t) : Z :=
  match Entry.userInfo sub with
  | Some info =>
      match UserInfo.total info with
      | Some total =>
          if Entry.enabled sub && (total >? 0)%Z then
            let used :=
              match UserInfo.upload info with Some u => u | None => 0 end
              + match UserInfo.download info with Some d => d | None => 0 end
            in
            let remaining := total - used in
            acc + Z.max 0 remaining
          else acc
      | None => acc
      end
  | None => acc
  end.

Definition totalRemainingBytes (targets : list Entry.t) : Z :=
  fold_left addRemaining targets 0.

Definition supportedFormats : list string :=
  ["clash"; "singbox"; "surge"; "loon"; "base64"; "v2ray"; "trojan"].

Definition uaMapping : list (string * string) :=
  [ ("flyclash", "clash");
    ("mihomo", "clash");
    ("clash.meta", "clash");
    ("clash-verge", "clash");
    ("meta", "clash");
    ("stash", "clash");
    ("nekoray", "clash");
    ("sing-box", "singbox");
    ("shadowrocket", "base64");
    ("v2rayn", "base64");
    ("v2rayng", "base64");
    ("surge", "surge");
    ("loon", "loon");
    ("quantumult%20x", "quanx");
    ("quantumult", "quanx");
    ("clash", "clash") ].

(** Lines 144-184.  Each block under [if (!targetFormat)] updates the
    variable [targetFormat]; a [for] loop that assigns and breaks at the
    first element passing its test is a [find]. *)

(** Lines 145-153. *)
Definition formatFromFlags (params : SearchParams.t) (targetFormat : JsStr)
  : JsStr :=
  if negb (truthy targetFormat) then
    match find (fun format => SearchParams.has format params)
               supportedFormats with
    | Some format =>
        val (if (format =? "v2ray") || (format =? "trojan") then "base64"
             else format)
    | None => targetFormat
    end
  else targetFormat.

(** Lines 155-182. *)
Definition formatFromUserAgent (userAgentHeader : string)
    (targetFormat : JsStr) : JsStr :=
  if negb (truthy targetFormat) then
    let ua := toLowerCase userAgentHeader in
    match find (fun entry => includes ua (fst entry)) uaMapping with
    | Some (_, format) => val format
    | None => targetFormat
    end
  else targetFormat.

(** Line 184. *)
Definition formatOrDefault (targetFormat : JsStr) : string :=
  if negb (truthy targetFormat) then "base64" else toString targetFormat.

Definition negotiateFormat (params : SearchParams.t) (userAgentHeader : string)
  : string :=
  let targetFormat := SearchParams.get "target" params in
  let targetFormat := formatFromFlags params targetFormat in
  let targetFormat := formatFromUserAgent userAgentHeader targetFormat in
  formatOrDefault targetFormat.

Definition outputHeaders : Headers.t :=
  Headers.ofObject
    [ ("Content-Type", "text/plain; charset=utf-8");
      ("Cache-Control", "no-store, no-cache") ].

(** [new Response(body, { status })]. *)
Definition errorResponse (status : Z) (body : string) : Response.t :=
  Response.mk status "" [] body.

(** [new Response(body, { headers })]. *)
Definition textResponse (body : string) : Response.t :=
  Response.mk 200 "" outputHeaders body.

Section Handler.

Variable K : Collaborators.
Variable S : Snapshot.
(** The time value of [new Date()] when the request is handled. *)
Variable now : Z.

(** Lines 81-87. *)
Definition profileExpired (profile : Profile.t) : bool :=
  if truthy (Profile.expiresAt profile) then
    match dateValue K (toString (Profile.expiresAt profile)) with
    | Some expiryDate => (now >? expiryDate)%Z
    | None => false
    end
  else false.

(** Lines 63-135: authorization and the choice of the entries. *)
Definition selectTargets (token profileIdentifier : JsStr)
  : (Response.t * Exit) + Selection :=
  if truthy profileIdentifier then
    if negb (truthy token)
       || negb (strict_eq token (Config.profileToken (config S))) then
      inl (errorResponse 403 "Invalid Profile Token", InvalidProfileToken)
    else
      match findProfile (allProfiles S) profileIdentifier with
      | None =>
          inl (errorResponse 404 "Profile not found or disabled",
               ProfileNotFound)
      | Some profile =>
          if negb (Profile.enabled profile) then
            inl (errorResponse 404 "Profile not found or disabled",
                 ProfileNotFound)
          else
            let isProfileExpired := profileExpired profile in
            inr {| targetMisubs :=
                     if isProfileExpired then expiredEntries
                     else filter (belongsTo profile) (allMisubs S);
                   subName := Profile.name profile;
                   effectiveSubConverter :=
                     if trimsToNonEmpty (Profile.subConverter profile)
                     then Profile.subConverter profile
                     else Config.subConverter (config S);
                   effectiveSubConfig :=
                     if trimsToNonEmpty (Profile.subConfig profile)
                     then Profile.subConfig profile
                     else Config.subConfig (config S);
                   isProfileExpired := isProfileExpired |}
      end
  else
    if negb (truthy token)
       || negb (strict_eq token (Config.mytoken (config S))) then
      inl (errorResponse 403 "Invalid Token", InvalidToken)
    else
      inr {| targetMisubs := filter Entry.enabled (allMisubs S);
             subName := Config.FileName (config S);
             effectiveSubConverter := Config.subConverter (config S);
             effectiveSubConfig := Config.subConfig (config S);
             isProfileExpired := false |}.

(** Lines 187-204: the notification a request schedules. *)
Definition notification (req : Request.t) (userAgentHeader : string)
    (targetFormat : string) (profileIdentifier : JsStr) (subName : string)
  : list Event :=
  if negb (SearchParams.has "callback_token" (Request.searchParams req))
  then
    let clientIp := or_else (Request.cfConnectingIp req) "N/A" in
    let domain := Request.hostname req in
    let additionalData :=
      "*域名:* `" ++ domain ++ "`" ++ LF
      ++ "*客户端:* `" ++ userAgentHeader ++ "`" ++ LF
      ++ "*请求格式:* `" ++ targetFormat ++ "`" in
    let additionalData :=
      if truthy profileIdentifier then
        let additionalData :=
          additionalData ++ LF ++ "*订阅组:* `" ++ subName ++ "`" in
        match findProfile (allProfiles S) profileIdentifier with
        | Some profile =>
            if truthy (Profile.expiresAt profile) then
              additionalData ++ LF ++ "*到期时间:* `"
              ++ toLocaleString K (toString (Profile.expiresAt profile))
              ++ "`"
            else additionalData
        | None => additionalData
        end
      else additionalData in
    [Notify (config S) "🛰️ *订阅被访问*" clientIp additionalData]
  else [].

(** Lines 206-234. *)
Definition prependedContentForSubconverter (sel : Selection) : string :=
  if isProfileExpired sel then ""
  else
    let total := totalRemainingBytes (targetMisubs sel) in
    if (total >? 0)%Z then
      let formattedTraffic := formatBytes K total in
      let fakeNodeName := "流量剩余 ≫ " ++ formattedTraffic in
      "trojan://00000000-0000-0000-0000-000000000000@127.0.0.1:443#"
      ++ encodeURIComponent fakeNodeName
    else "".

(** Lines 283-286. *)
Definition callbackPath (token profileIdentifier : JsStr) : string :=
  if truthy profileIdentifier then
    "/" ++ toString token ++ "/" ++ toString profileIdentifier
  else "/" ++ toString token.

Definition callbackUrl (req : Request.t) (token profileIdentifier : JsStr)
  : string :=
  Request.protocol req ++ "//" ++ Request.host req
  ++ callbackPath token profileIdentifier
  ++ "?target=base64&callback_token=" ++ getCallbackToken K.

(** Lines 297-308.  The backend setting is a host, so the URL starts
    without parameters. *)
Definition subconverterUrl (sel : Selection) (targetFormat : string)
    (callback : string) : Url.t :=
  let href := "https://" ++ toString (effectiveSubConverter sel) ++ "/sub" in
  let params := SearchParams.set "target" targetFormat [] in
  let params := SearchParams.set "url" callback params in
  let params :=
    if ((targetFormat =? "clash") || (targetFormat =? "loon")
        || (targetFormat =? "surge"))
       && trimsToNonEmpty (effectiveSubConfig sel)
    then SearchParams.set "config" (toString (effectiveSubConfig sel)) params
    else params in
  let params := SearchParams.set "new_name" "true" params in
  Url.mk href params.

(** Lines 310-342. *)
Definition relay (sel : Selection) (u : Url.t) : Response.t * Exit :=
  match fetch K u with
  | Fetched r =>
      if negb (Response.ok r) then
        (errorResponse 502
           ("Error connecting to subconverter: "
            ++ "Subconverter service returned status: "
            ++ intToString (Response.status r)
            ++ ". Body: " ++ Response.body r),
         ConverterError)
      else
        let responseHeaders := Headers.ofObject (Response.headers r) in
        let responseHeaders :=
          Headers.set "Content-Disposition"
            ("attachment; filename*=utf-8''"
             ++ encodeURIComponent (subName sel)) responseHeaders in
        let responseHeaders :=
          Headers.set "Content-Type" "text/plain; charset=utf-8"
                      responseHeaders in
        let responseHeaders :=
          Headers.set "Cache-Control" "no-store, no-cache"
                      responseHeaders in
        (Response.mk (Response.status r) (Response.statusText r)
                     responseHeaders (Response.body r),
         ConverterOutput)
  | FetchFailed message =>
      (errorResponse 502 ("Error connecting to subconverter: " ++ message),
       ConverterError)
  end.

(** Lines 141-342: the answer to an authorized request, once a converter
    backend is known. *)
Definition respond (req : Request.t) (token profileIdentifier : JsStr)
    (sel : Selection) : Outcome :=
  let userAgentHeader := or_else (Request.userAgent req) "Unknown" in
  let targetFormat :=
    negotiateFormat (Request.searchParams req) userAgentHeader in
  let notified :=
    notification req userAgentHeader targetFormat profileIdentifier
                 (subName sel) in
  let combinedNodeList :=
    generateCombinedNodeList K req (config S) userAgentHeader
      (targetMisubs sel) (prependedContentForSubconverter sel)
      (if truthy profileIdentifier then
         match findProfile (allProfiles S) profileIdentifier with
         | Some profile => Profile.prefixSettings profile
         | None => undefined
         end
       else null) in
  if targetFormat =? "base64" then
    let contentToEncode :=
      if isProfileExpired sel then join LF EXPIRED_NODES ++ LF
      else combinedNodeList in
    mkOutcome (textResponse (btoa_utf8 contentToEncode))
              Base64Output notified []
  else
    let base64Content := btoa_utf8 combinedNodeList in
    let callback := callbackUrl req token profileIdentifier in
    if strict_eq
         (SearchParams.get "callback_token" (Request.searchParams req))
         (val (getCallbackToken K))
    then mkOutcome (textResponse base64Content) CallbackOutput notified []
    else
      let target := subconverterUrl sel targetFormat callback in
      let (resp, site) := relay sel target in
      mkOutcome resp site notified [target].

(** [handleMisubRequest(context)]. *)
Definition handleMisubRequest (req : Request.t) : Outcome :=
  let (token, profileIdentifier) := resolveToken req in
  match selectTargets token profileIdentifier with
  | inl (resp, site) => mkOutcome resp site [] []
  | inr sel =>
      if blank (effectiveSubConverter sel) then
        mkOutcome
          (errorResponse 500 "Subconverter backend is not configured.")
          NotConfigured [] []
      else respond req token profileIdentifier sel
  end.

End Handler.

(** ** The vocabulary of the specification *)

(** [l1] is [l2] with some elements left out, the order kept. *)
Inductive Subsequence {A : Type} : list A -> list A -> Prop :=
| sub_nil : Subsequence [] []
| sub_skip : forall x l1 l2, Subsequence l1 l2 -> Subsequence l1 (x :: l2)
| sub_keep : forall x l1 l2,
    Subsequence l1 l2 -> Subsequence (x :: l1) (x :: l2).

(** An entry is a remote subscription when its URL starts with [http]. *)
Definition isRemote (e : Entry.t) : Prop :=
  String.prefix "http" (Entry.url e) = true.

(** Membership of an entry in a profile, as the specification words it. *)
Definition inProfile (p : Profile.t) (e : Entry.t) : Prop :=
  Entry.enabled e = true
  /\ ((isRemote e /\ In (Entry.id e) (Profile.subscriptions p))
      \/ (~ isRemote e /\ In (Entry.id e) (Profile.manualNodes p))).

(** A value is missing when it is absent or the empty string. *)
Definition missing (v : JsStr) : Prop :=
  v = undefined \/ v = null \/ v = val "".

(** An override counts as non-blank when it is absent or does not trim to the
    empty string. *)
Definition nonBlank (v : JsStr) : Prop :=
  match v with
  | val s => trim s <> ""
  | _ => True
  end.

(** An entry counts towards the remaining traffic when it is enabled and its
    quota is positive. *)
Definition counted (e : Entry.t) : bool :=
  match Entry.userInfo e with
  | Some info =>
      match UserInfo.total info with
      | Some total => Entry.enabled e && (0 <? total)%Z
      | None => false
      end
  | None => false
  end.

(** [max(0, total - (upload + download))]. *)
Definition remainingQuota (e : Entry.t) : Z :=
  match Entry.userInfo e with
  | Some info =>
      let get o := match o with Some n => n | None => 0%Z end in
      Z.max 0 (get (UserInfo.total info)
               - (get (UserInfo.upload info) + get (UserInfo.download info)))
  | None => 0
  end.

Definition sumZ (l : list Z) : Z := fold_right Z.add 0%Z l.

(** The flag normalization of line 149. *)
Definition normalized (format : string) : string :=
  if (format =? "v2ray") || (format =? "trojan") then "base64" else format.

(** The request with another query. *)
Definition withSearchParams (req : Request.t) (params : SearchParams.t)
  : Request.t :=
  Request.mk (Request.protocol req) (Request.host req) (Request.hostname req)
             (Request.pathname req) params (Request.userAgent req)
             (Request.cfConnectingIp req) (Request.cfIpCountry req).


(** The request the converter makes to the callback URL built for
    [token] and [profileIdentifier]: the URL
    [protocol//host/token[/profile]?target=base64&callback_token=...] as the
    URL parser reads it, with the converter's own headers. *)
Definition callbackRequest (K : Collaborators) (origin : Request.t)
    (token profileIdentifier : JsStr) (userAgent clientIp country : JsStr)
  : Request.t :=
  Request.mk (Request.protocol origin) (Request.host origin)
             (Request.hostname origin)
             (callbackPath token profileIdentifier)
             [ ("target", "base64");
               ("callback_token", getCallbackToken K) ]
             userAgent clientIp country.

(** A token and a profile identifier read from a path are segments: not
    empty, and without a slash. *)
Definition segment (s : string) : Prop :=
  s <> "" /\ ~ In "/"%char (list_ascii_of_string s).

(** The responses that end a request before any output is composed. *)
Definition rejected (e : Exit) : Prop :=
  e = InvalidProfileToken \/ e = ProfileNotFound \/ e = InvalidToken
  \/ e = NotConfigured.

(** ** Sample data *)

Module Sample.

(** A node list: the prepended line and the URL of every entry. *)
Definition compose (_ : Request.t) (_ : Config.t) (_ : string)
    (entries : list Entry.t) (prepended : string)
    (_ : JsOpt PrefixSettings) : string :=
  String.concat "" (map (fun l => l ++ LF)
              ((if prepended =? "" then [] else [prepended])
               ++ map Entry.url entries)).

(** A converter that answers with the parameters it was called with. *)
Definition echo (u : Url.t) : FetchResult :=
  Fetched
    (Response.mk 200 "OK" [("content-type", "text/yaml")]
       (String.concat "" (map (fun p => fst p ++ "=" ++ snd p ++ LF)
                    (Url.searchParams u)))).

Definition K : Collaborators :=
  {| generateCombinedNodeList := compose;
     formatBytes := fun n => intToString n ++ " B";
     getCallbackToken := "3f2a9c";
     fetch := echo;
     dateValue := fun s =>
       if s =? "2020-01-01T00:00:00Z" then Some 1577836800000%Z
       else if s =? "2099-01-01T00:00:00Z" then Some 4070908800000%Z
       else None;
     toLocaleString := fun s => s |}.

Definition now : Z := 1800000000000.

Definition remote : Entry.t :=
  Entry.mk "s1" "https://provider.example/sub?id=1" "provider" true
           (Some (UserInfo.mk (Some 10%Z) (Some 20%Z) (Some 100%Z))) false.

Definition manual : Entry.t :=
  Entry.mk "n1" "vmess://bm9kZQ==" "node" true None false.

Definition disabled : Entry.t :=
  Entry.mk "s2" "https://other.example/sub" "other" false
           (Some (UserInfo.mk (Some 1%Z) (Some 1%Z) (Some 50%Z))) false.

Definition unlisted : Entry.t :=
  Entry.mk "n2" "trojan://pw@host.example:443" "spare" true None false.

Definition promoA : Profile.t :=
  Profile.mk "p1" (val "promoA") "Promo A" true
             (val "2020-01-01T00:00:00Z") ["s1"] ["n1"]
             (val "") (val "") undefined.

Definition vip : Profile.t :=
  Profile.mk "p2" (val "vip") "VIP" true (val "2099-01-01T00:00:00Z")
             ["s1"; "s2"] ["n1"]
             (val "conv.example.org") undefined (val "{}").

Definition cfg : Config.t :=
  Config.mk (val "abc123") (val "profiles") (val "sub.example.com")
            (val "https://example.com/rules.ini") "MiSub".

Definition S : Snapshot :=
  mkSnapshot cfg [remote; manual; disabled; unlisted] [promoA; vip].

(** The same store with no converter backend in the settings. *)
Definition S_unconfigured : Snapshot :=
  mkSnapshot
    (Config.mk (val "abc123") (val "profiles") (val "") (val "") "MiSub")
    [remote; manual; disabled; unlisted] [promoA; vip].

(** The same store with [sub] as the profile token. *)
Definition S_sub : Snapshot :=
  mkSnapshot
    (Config.mk (val "abc123") (val "sub") (val "sub.example.com")
               (val "https://example.com/rules.ini") "MiSub")
    [remote; manual; disabled; unlisted] [promoA; vip].

Definition get (path : string) (query : SearchParams.t) (ua : string)
  : Request.t :=
  Request.mk "https:" "misub.example" "misub.example" path query
             (val ua) (val "203.0.113.7") (val "DE").

End Sample.


(** ** Further vocabulary *)

(** Lines 236-243: the node list composed for a request. *)
Definition composedList (K : Collaborators) (S : Snapshot) (req : Request.t)
    (profileIdentifier : JsStr) (sel : Selection) : string :=
  generateCombinedNodeList K req (config S)
    (or_else (Request.userAgent req) "Unknown")
    (targetMisubs sel) (prependedContentForSubconverter K sel)
    (if truthy profileIdentifier then
       match findProfile (allProfiles S) profileIdentifier with
       | Some profile => Profile.prefixSettings profile
       | None => undefined
       end
     else null).

(** A backend setting that is absent, empty or only white space. *)
Definition unconfigured (v : JsStr) : Prop :=
  v = undefined \/ v = null \/ exists s, v = val s /\ trim s = "".

(** A profile answers to an identifier through its [id] or its [customId]. *)
Definition answersTo (identifier : string) (p : Profile.t) : Prop :=
  Profile.id p = identifier \/ Profile.customId p = val identifier.

(** The formats a request can end up with when it names none itself. *)
Definition knownFormats : list string :=
  ["clash"; "singbox"; "surge"; "loon"; "base64"; "quanx"].


(** More sample data: converters that fail, and a store whose backend is
    white space. *)
Module Upstream.

Definition down : Collaborators :=
  {| generateCombinedNodeList := Sample.compose;
     formatBytes := formatBytes Sample.K;
     getCallbackToken := getCallbackToken Sample.K;
     fetch := fun _ => FetchFailed "fetch failed";
     dateValue := dateValue Sample.K;
     toLocaleString := toLocaleString Sample.K |}.


Definition S_spaces : Snapshot :=
  mkSnapshot
    (Config.mk (val "abc123") (val "profiles") (val "   ") (val "") "MiSub")
    [Sample.remote; Sample.manual] [Sample.promoA; Sample.vip].

(** A profile without overrides of its own, and one that is switched off
    and stands before an enabled profile of the same [customId]. *)
Definition plain : Profile.t :=
  Profile.mk "p3" (val "plain") "Plain" true undefined ["s1"] []
             undefined undefined undefined.

Definition off : Profile.t :=
  Profile.mk "p4" (val "twin") "Twin (off)" false undefined ["s1"] []
             (val "") (val "") undefined.

Definition twin : Profile.t :=
  Profile.mk "p5" (val "twin") "Twin" true undefined ["s1"] []
             (val "") (val "") undefined.

Definition S_more : Snapshot :=
  mkSnapshot Sample.cfg [Sample.remote; Sample.manual] [plain; off; twin].

End Upstream.

(** ** Properties of the primitives *)

Lemma strict_eq_true (a b : JsStr) : strict_eq a b = true <-> a = b.
Proof.
  destruct a, b; simpl; split; intro H;
    try reflexivity; try discriminate.
  - apply String.eqb_eq in H. now subst.
  - injection H as ->. apply String.eqb_refl.
Qed.

Lemma strict_eq_false (a b : JsStr) : strict_eq a b = false <-> a <> b.
Proof.
  split.
  - intros H E. apply strict_eq_true in E. congruence.
  - intro H. destruct (strict_eq a b) eqn:E; [|reflexivity].
    apply strict_eq_true in E. contradiction.
Qed.

Lemma truthy_false (v : JsStr) : truthy v = false <-> missing v.
Proof.
  unfold missing. destruct v as [| |s]; simpl.
  - split; auto.
  - split; auto.
  - destruct (String.eqb_spec s ""); simpl; split; intro H;
      try discriminate; try subst; auto.
    destruct H as [H|[H|H]]; try discriminate. injection H as ->.
    contradiction.
Qed.

Lemma truthy_val (v : JsStr) :
  truthy v = true -> exists s, v = val s /\ s <> "".
Proof.
  destruct v as [| |s]; simpl; try discriminate.
  destruct (String.eqb_spec s ""); simpl; [discriminate|].
  intros _. now exists s.
Qed.

Lemma truthy_nonempty (s : string) : s <> "" -> truthy (val s) = true.
Proof.
  intro H. simpl. now destruct (String.eqb_spec s "").
Qed.

Lemma trimsToNonEmpty_nonBlank (v : JsStr) :
  trimsToNonEmpty v = true <-> nonBlank v.
Proof.
  unfold trimsToNonEmpty, nonBlank. destruct v as [| |s]; simpl.
  - tauto.
  - tauto.
  - destruct (String.eqb_spec (trim s) ""); simpl; split; intro H;
      try discriminate; try contradiction; auto.
Qed.

Lemma existsb_eqb_In (x : string) (l : list string) :
  existsb (String.eqb x) l = true <-> In x l.
Proof.
  rewrite existsb_exists. split.
  - intros [y [Hy E]]. apply String.eqb_eq in E. now subst.
  - intro H. exists x. split; [assumption|apply String.eqb_refl].
Qed.

Lemma filter_Subsequence {A : Type} (f : A -> bool) (l : list A) :
  Subsequence (filter f l) l.
Proof.
  induction l as [|x l IH]; simpl.
  - constructor.
  - destruct (f x); now constructor.
Qed.

Lemma unescape_encoded_char (c : ascii) (s : string) :
  unescape_from 0
    ((if unreserved c then String c "" else percent c) ++ s)
  = option_map (String c) (unescape_from 0 s).
Proof.
  destruct c as [[] [] [] [] [] [] [] []]; reflexivity.
Qed.

(** [unescape] gives back the bytes that [encodeURIComponent] escaped. *)
Lemma unescape_encodeURIComponent (s : string) :
  unescape (encodeURIComponent s) = Some s.
Proof.
  unfold unescape. induction s as [|c s IH]; [reflexivity|].
  simpl encodeURIComponent. rewrite unescape_encoded_char, IH. reflexivity.
Qed.

Lemma btoa_utf8_base64 (s : string) : btoa_utf8 s = btoa s.
Proof. unfold btoa_utf8. now rewrite unescape_encodeURIComponent. Qed.

Lemma expired_text_decodes :
  atob (btoa_utf8 (join LF EXPIRED_NODES ++ LF))
  = Some (join LF EXPIRED_NODES ++ LF).
Proof. vm_compute. reflexivity. Qed.

Lemma pathSegments_nonempty (pathname segment : string) :
  In segment (pathSegments pathname) -> segment <> "".
Proof.
  unfold pathSegments. intro H. apply filter_In in H. destruct H as [_ H].
  intros ->. discriminate.
Qed.

(** A request that names a profile has a token, and both come from the
    path. *)
Lemma resolveToken_profile (req : Request.t) :
  truthy (snd (resolveToken req)) = true ->
  truthy (fst (resolveToken req)) = true.
Proof.
  unfold resolveToken.
  pose proof (pathSegments_nonempty (Request.pathname req)) as H.
  destruct (pathSegments (Request.pathname req)) as [|t [|p l]]; simpl;
    try discriminate.
  intros _. apply truthy_nonempty. apply H. now left.
Qed.

(** ** Authorization *)

Section Authorization.

Variables (K : Collaborators) (S : Snapshot) (now : Z).

Lemma handle_rejected_by_selection req resp site :
  selectTargets K S now (fst (resolveToken req)) (snd (resolveToken req))
  = inl (resp, site) ->
  handleMisubRequest K S now req = mkOutcome resp site [] [].
Proof.
  intro H. unfold handleMisubRequest.
  destruct (resolveToken req) as [token pid]. simpl in H.
  now rewrite H.
Qed.

Lemma direct_token_checked token pid :
  truthy pid = false ->
  missing token \/ token <> Config.mytoken (config S) ->
  selectTargets K S now token pid
  = inl (errorResponse 403 "Invalid Token", InvalidToken).
Proof.
  intros Hp Ht. unfold selectTargets. rewrite Hp.
  destruct Ht as [Ht|Ht].
  - apply truthy_false in Ht. now rewrite Ht.
  - apply strict_eq_false in Ht. rewrite Ht.
    now rewrite orb_true_r.
Qed.

Lemma profile_token_checked token pid :
  truthy pid = true ->
  missing token \/ token <> Config.profileToken (config S) ->
  selectTargets K S now token pid
  = inl (errorResponse 403 "Invalid Profile Token", InvalidProfileToken).
Proof.
  intros Hp Ht. unfold selectTargets. rewrite Hp.
  destruct Ht as [Ht|Ht].
  - apply truthy_false in Ht. now rewrite Ht.
  - apply strict_eq_false in Ht. rewrite Ht.
    now rewrite orb_true_r.
Qed.

(** C4.  A request whose token is missing or differs from the configured
    token of its mode, the direct token when the path names no profile and
    the profile token when it names one, is answered with status 403,
    whatever else the request holds. *)
Theorem invalid_token_is_forbidden (req : Request.t) :
  let token := fst (resolveToken req) in
  let profileIdentifier := snd (resolveToken req) in
  (truthy profileIdentifier = false ->
   missing token \/ token <> Config.mytoken (config S) ->
   Response.status (response (handleMisubRequest K S now req)) = 403%Z)
  /\ (truthy profileIdentifier = true ->
      missing token \/ token <> Config.profileToken (config S) ->
      Response.status (response (handleMisubRequest K S now req)) = 403%Z).
Proof.
  simpl. split; intros Hp Ht.
  - rewrite (handle_rejected_by_selection req _ _
               (direct_token_checked _ _ Hp Ht)).
    reflexivity.
  - rewrite (handle_rejected_by_selection req _ _
               (profile_token_checked _ _ Hp Ht)).
    reflexivity.
Qed.

End Authorization.

(** Two requests of C4: a direct one with a wrong token and a format flag,
    and a profile one with a wrong token. *)
Lemma invalid_token_is_forbidden_witness :
  Response.status
    (response (handleMisubRequest Sample.K Sample.S Sample.now
                 (Sample.get "/sub/wrong" [("clash", "")] "curl"))) = 403%Z
  /\ Response.status
       (response (handleMisubRequest Sample.K Sample.S Sample.now
                    (Sample.get "/sub/wrong/vip" [("target", "base64")]
                                "curl"))) = 403%Z.
Proof.
  split.
  - apply (proj1 (invalid_token_is_forbidden Sample.K Sample.S Sample.now
                    (Sample.get "/sub/wrong" [("clash", "")] "curl"))).
    + reflexivity.
    + right. simpl. discriminate.
  - apply (proj2 (invalid_token_is_forbidden Sample.K Sample.S Sample.now
                    (Sample.get "/sub/wrong/vip" [("target", "base64")]
                                "curl"))).
    + reflexivity.
    + right. simpl. discriminate.
Defined.

(** ** Selection of the entries *)

Section Selection.

Variables (K : Collaborators) (S : Snapshot) (now : Z).

Lemma belongsTo_inProfile (p : Profile.t) (e : Entry.t) :
  belongsTo p e = true <-> inProfile p e.
Proof.
  unfold belongsTo, inProfile, isRemote, startsWith.
  rewrite andb_true_iff, orb_true_iff, !andb_true_iff, negb_true_iff,
    !existsb_eqb_In.
  destruct (String.prefix "http" (Entry.url e)); intuition congruence.
Qed.

(** What an authorized profile request leaves in the handler's variables. *)
Lemma selectTargets_profile token pid sel :
  truthy pid = true ->
  selectTargets K S now token pid = inr sel ->
  exists profile,
    findProfile (allProfiles S) pid = Some profile
    /\ Profile.enabled profile = true
    /\ token = Config.profileToken (config S)
    /\ sel =
       {| targetMisubs :=
            if profileExpired K now profile then expiredEntries
            else filter (belongsTo profile) (allMisubs S);
          subName := Profile.name profile;
          effectiveSubConverter :=
            if trimsToNonEmpty (Profile.subConverter profile)
            then Profile.subConverter profile
            else Config.subConverter (config S);
          effectiveSubConfig :=
            if trimsToNonEmpty (Profile.subConfig profile)
            then Profile.subConfig profile
            else Config.subConfig (config S);
          isProfileExpired := profileExpired K now profile |}.
Proof.
  intros Hp H. unfold selectTargets in H. rewrite Hp in H.
  destruct (truthy token) eqn:Ht; simpl in H; [|discriminate].
  destruct (strict_eq token (Config.profileToken (config S))) eqn:He;
    simpl in H; [|discriminate].
  destruct (findProfile (allProfiles S) pid) as [profile|]; [|discriminate].
  destruct (Profile.enabled profile) eqn:En; simpl in H; [|discriminate].
  exists profile. apply strict_eq_true in He.
  injection H as <-. auto.
Qed.

Lemma selectTargets_direct token pid sel :
  truthy pid = false ->
  selectTargets K S now token pid = inr sel ->
  token = Config.mytoken (config S)
  /\ sel =
     {| targetMisubs := filter Entry.enabled (allMisubs S);
        subName := Config.FileName (config S);
        effectiveSubConverter := Config.subConverter (config S);
        effectiveSubConfig := Config.subConfig (config S);
        isProfileExpired := false |}.
Proof.
  intros Hp H. unfold selectTargets in H. rewrite Hp in H.
  destruct (truthy token) eqn:Ht; simpl in H; [|discriminate].
  destruct (strict_eq token (Config.mytoken (config S))) eqn:He;
    simpl in H; [|discriminate].
  apply strict_eq_true in He. injection H as <-. auto.
Qed.

(** C5.  For an authorized request the chosen entries are: in direct-token
    mode, all the stored entries that are enabled; for a profile that has
    not expired, the stored entries that are enabled and belong to it, a
    remote subscription through [subscriptions] and a manual node through
    [manualNodes].  Either way the entries keep the order of the store. *)
Theorem selection_filters_the_store (token pid : JsStr) (sel : Selection) :
  selectTargets K S now token pid = inr sel ->
  (truthy pid = false ->
   targetMisubs sel = filter Entry.enabled (allMisubs S)
   /\ (forall e, In e (targetMisubs sel)
                 <-> In e (allMisubs S) /\ Entry.enabled e = true))
  /\ (truthy pid = true -> isProfileExpired sel = false ->
      exists profile,
        findProfile (allProfiles S) pid = Some profile
        /\ targetMisubs sel = filter (belongsTo profile) (allMisubs S)
        /\ (forall e, In e (targetMisubs sel)
                      <-> In e (allMisubs S) /\ inProfile profile e))
  /\ (isProfileExpired sel = false ->
      Subsequence (targetMisubs sel) (allMisubs S)).
Proof.
  intro H. split; [|split].
  - intro Hp. destruct (selectTargets_direct _ _ _ Hp H) as [_ ->]. simpl.
    split; [reflexivity|]. intro e. apply filter_In.
  - intros Hp Hx.
    destruct (selectTargets_profile _ _ _ Hp H) as [p [Hf [_ [_ ->]]]].
    simpl in *. exists p. rewrite Hx. split; [assumption|].
    split; [reflexivity|]. intro e.
    rewrite filter_In, belongsTo_inProfile. reflexivity.
  - intro Hx. destruct (truthy pid) eqn:Hp.
    + destruct (selectTargets_profile _ _ _ Hp H) as [p [_ [_ [_ ->]]]].
      simpl in *. rewrite Hx. apply filter_Subsequence.
    + destruct (selectTargets_direct _ _ _ Hp H) as [_ ->]. simpl.
      apply filter_Subsequence.
Qed.

(** C3.  For an authorized profile request the effective converter backend
    is the profile's own [subConverter] when that is absent or does not
    trim to the empty string, and the value of the settings otherwise; the
    config string is resolved by the same rule from [subConfig]. *)
Theorem profile_override_resolution (token pid : JsStr) (sel : Selection) :
  truthy pid = true ->
  selectTargets K S now token pid = inr sel ->
  exists profile,
    findProfile (allProfiles S) pid = Some profile
    /\ (nonBlank (Profile.subConverter profile) ->
        effectiveSubConverter sel = Profile.subConverter profile)
    /\ (~ nonBlank (Profile.subConverter profile) ->
        effectiveSubConverter sel = Config.subConverter (config S))
    /\ (nonBlank (Profile.subConfig profile) ->
        effectiveSubConfig sel = Profile.subConfig profile)
    /\ (~ nonBlank (Profile.subConfig profile) ->
        effectiveSubConfig sel = Config.subConfig (config S)).
Proof.
  intros Hp H.
  destruct (selectTargets_profile _ _ _ Hp H) as [p [Hf [_ [_ ->]]]].
  exists p. simpl. split; [assumption|].
  repeat split; intro Hb.
  - apply trimsToNonEmpty_nonBlank in Hb. now rewrite Hb.
  - destruct (trimsToNonEmpty (Profile.subConverter p)) eqn:E;
      [|reflexivity].
    apply trimsToNonEmpty_nonBlank in E. contradiction.
  - apply trimsToNonEmpty_nonBlank in Hb. now rewrite Hb.
  - destruct (trimsToNonEmpty (Profile.subConfig p)) eqn:E; [|reflexivity].
    apply trimsToNonEmpty_nonBlank in E. contradiction.
Qed.

End Selection.

(** C5 on the sample store: the profile [vip] and the direct token. *)
Lemma selection_filters_the_store_witness :
  (exists profile,
      findProfile (allProfiles Sample.S) (val "vip") = Some profile
      /\ [Sample.remote; Sample.manual]
         = filter (belongsTo profile) (allMisubs Sample.S)
      /\ (forall e, In e [Sample.remote; Sample.manual]
                    <-> In e (allMisubs Sample.S) /\ inProfile profile e))
  /\ Subsequence [Sample.remote; Sample.manual; Sample.unlisted]
                 (allMisubs Sample.S).
Proof.
  split.
  - apply (proj1 (proj2 (selection_filters_the_store Sample.K Sample.S
                           Sample.now (val "profiles") (val "vip") _
                           eq_refl)));
      reflexivity.
  - apply (proj2 (proj2 (selection_filters_the_store Sample.K Sample.S
                           Sample.now (val "abc123") null _ eq_refl))).
    reflexivity.
Defined.

(** C3 on the sample store: [vip] has a backend of its own and no config
    string, [promoA] has blank overrides. *)
Lemma profile_override_resolution_witness :
  (exists profile,
      findProfile (allProfiles Sample.S) (val "vip") = Some profile
      /\ (nonBlank (Profile.subConverter profile) ->
          val "conv.example.org" = Profile.subConverter profile)
      /\ (~ nonBlank (Profile.subConverter profile) ->
          val "conv.example.org" = Config.subConverter (config Sample.S))
      /\ (nonBlank (Profile.subConfig profile) ->
          undefined = Profile.subConfig profile)
      /\ (~ nonBlank (Profile.subConfig profile) ->
          undefined = Config.subConfig (config Sample.S)))
  /\ (exists profile,
         findProfile (allProfiles Sample.S) (val "promoA") = Some profile
         /\ (nonBlank (Profile.subConverter profile) ->
             val "sub.example.com" = Profile.subConverter profile)
         /\ (~ nonBlank (Profile.subConverter profile) ->
             val "sub.example.com" = Config.subConverter (config Sample.S))
         /\ (nonBlank (Profile.subConfig profile) ->
             val "https://example.com/rules.ini" = Profile.subConfig profile)
         /\ (~ nonBlank (Profile.subConfig profile) ->
             val "https://example.com/rules.ini"
             = Config.subConfig (config Sample.S))).
Proof.
  split.
  - exact (profile_override_resolution Sample.K Sample.S Sample.now
             (val "profiles") (val "vip") _ eq_refl eq_refl).
  - exact (profile_override_resolution Sample.K Sample.S Sample.now
             (val "profiles") (val "promoA") _ eq_refl eq_refl).
Defined.

(** ** Traffic summary *)

Lemma addRemaining_counted (acc : Z) (e : Entry.t) :
  addRemaining acc e
  = (acc + (if counted e then remainingQuota e else 0))%Z.
Proof.
  unfold addRemaining, counted, remainingQuota.
  destruct (Entry.userInfo e) as [[up down [total|]]|]; simpl;
    try (now rewrite Z.add_0_r).
  destruct (Entry.enabled e); simpl; try (now rewrite Z.add_0_r).
  rewrite Z.gtb_ltb. destruct (0 <? total)%Z; [reflexivity|].
  now rewrite Z.add_0_r.
Qed.

Lemma remainingQuota_nonneg (e : Entry.t) : (0 <= remainingQuota e)%Z.
Proof.
  unfold remainingQuota. destruct (Entry.userInfo e); lia.
Qed.

Lemma fold_addRemaining (l : list Entry.t) (acc : Z) :
  fold_left addRemaining l acc
  = (acc + sumZ (map remainingQuota (filter counted l)))%Z.
Proof.
  revert acc. induction l as [|e l IH]; intro acc; simpl.
  - now rewrite Z.add_0_r.
  - rewrite IH, addRemaining_counted.
    destruct (counted e); simpl; lia.
Qed.

Lemma totalRemainingBytes_sum (l : list Entry.t) :
  totalRemainingBytes l = sumZ (map remainingQuota (filter counted l)).
Proof.
  unfold totalRemainingBytes. now rewrite fold_addRemaining.
Qed.



Lemma totalRemainingBytes_nonneg (l : list Entry.t) :
  (0 <= totalRemainingBytes l)%Z.
Proof.
  rewrite totalRemainingBytes_sum.
  induction l as [|e l IH]; simpl; [lia|].
  destruct (counted e); simpl; [|assumption].
  pose proof (remainingQuota_nonneg e). lia.
Qed.





Section Traffic.

Variable K : Collaborators.


End Traffic.


(** ** Format negotiation *)

Lemma find_first {A : Type} (f : A -> bool) (before after : list A) (x : A) :
  (forall y, In y before -> f y = false) ->
  f x = true ->
  find f (before ++ x :: after) = Some x.
Proof.
  intros Hb Hx. induction before as [|y before IH]; simpl.
  - now rewrite Hx.
  - rewrite (Hb y (or_introl eq_refl)). apply IH.
    intros z Hz. apply Hb. now right.
Qed.

Lemma find_none {A : Type} (f : A -> bool) (l : list A) :
  (forall y, In y l -> f y = false) -> find f l = None.
Proof.
  intro H. induction l as [|y l IH]; simpl; [reflexivity|].
  rewrite (H y (or_introl eq_refl)). apply IH.
  intros z Hz. apply H. now right.
Qed.

Lemma supportedFormats_nonempty (format : string) :
  In format supportedFormats -> format <> "".
Proof.
  simpl. intros H E. subst.
  repeat (destruct H as [H|H]; [discriminate|]). contradiction.
Qed.

Lemma uaMapping_nonempty (entry : string * string) :
  In entry uaMapping -> snd entry <> "".
Proof.
  simpl. intros H E.
  repeat (destruct H as [H|H]; [subst; discriminate|]). contradiction.
Qed.

Lemma formatFromFlags_kept params targetFormat :
  truthy targetFormat = true ->
  formatFromFlags params targetFormat = targetFormat.
Proof. intro H. unfold formatFromFlags. now rewrite H. Qed.

Lemma formatFromFlags_none params targetFormat :
  truthy targetFormat = false ->
  (forall f, In f supportedFormats -> SearchParams.has f params = false) ->
  formatFromFlags params targetFormat = targetFormat.
Proof.
  intros H Hf. unfold formatFromFlags. rewrite H. simpl negb. cbv iota.
  now rewrite (find_none _ _ Hf).
Qed.

Lemma formatFromUserAgent_kept ua targetFormat :
  truthy targetFormat = true ->
  formatFromUserAgent ua targetFormat = targetFormat.
Proof. intro H. unfold formatFromUserAgent. now rewrite H. Qed.

Lemma formatOrDefault_kept t :
  truthy (val t) = true -> formatOrDefault (val t) = t.
Proof. intro H. unfold formatOrDefault. now rewrite H. Qed.

Section Negotiation.

Variables (params : SearchParams.t) (userAgentHeader : string).

Lemma normalized_nonempty format :
  In format supportedFormats -> normalized format <> "".
Proof.
  intros H. unfold normalized.
  destruct ((format =? "v2ray") || (format =? "trojan"));
    [discriminate|now apply supportedFormats_nonempty].
Qed.

(** C2, amended.  The format is resolved in four stages, the first that
    applies wins: a [target] parameter that is not empty, used as it is,
    whatever flags and User-Agent come with it; with no such parameter, the
    first format of the list clash, singbox, surge, loon, base64, v2ray,
    trojan that is a parameter of the query, v2ray and trojan read as
    base64, whatever the User-Agent; with no flag either, the format of
    the first keyword of the table that the lower-cased User-Agent
    contains; and base64 when nothing applies. *)
Theorem format_negotiation :
  (forall t, SearchParams.get "target" params = val t -> t <> "" ->
             negotiateFormat params userAgentHeader = t)
  /\ (missing (SearchParams.get "target" params) ->
      forall before format after,
        supportedFormats = (before ++ format :: after)%list ->
        (forall f, In f before -> SearchParams.has f params = false) ->
        SearchParams.has format params = true ->
        negotiateFormat params userAgentHeader = normalized format)
  /\ (missing (SearchParams.get "target" params) ->
      (forall f, In f supportedFormats ->
                 SearchParams.has f params = false) ->
      forall before keyword format after,
        uaMapping = (before ++ (keyword, format) :: after)%list ->
        (forall e, In e before ->
                   includes (toLowerCase userAgentHeader) (fst e) = false) ->
        includes (toLowerCase userAgentHeader) keyword = true ->
        negotiateFormat params userAgentHeader = format)
  /\ (missing (SearchParams.get "target" params) ->
      (forall f, In f supportedFormats ->
                 SearchParams.has f params = false) ->
      (forall e, In e uaMapping ->
                 includes (toLowerCase userAgentHeader) (fst e) = false) ->
      negotiateFormat params userAgentHeader = "base64").
Proof.
  unfold negotiateFormat. cbv zeta. repeat split.
  - intros t Ht Hne. rewrite Ht.
    rewrite formatFromFlags_kept, formatFromUserAgent_kept,
      formatOrDefault_kept; auto using truthy_nonempty.
  - intros Hm before format after Hl Hb Hf.
    apply truthy_false in Hm. unfold formatFromFlags at 1.
    rewrite Hm. simpl negb. cbv iota.
    rewrite Hl, (find_first _ before after format Hb Hf).
    fold (normalized format).
    assert (Hin : In format supportedFormats)
      by (rewrite Hl; apply in_or_app; right; now left).
    pose proof (truthy_nonempty _ (normalized_nonempty _ Hin)) as Ht.
    rewrite formatFromUserAgent_kept, formatOrDefault_kept; auto.
  - intros Hm Hflags before keyword format after Hl Hb Hk.
    apply truthy_false in Hm.
    rewrite (formatFromFlags_none _ _ Hm Hflags).
    unfold formatFromUserAgent. rewrite Hm. simpl negb. cbv iota zeta.
    rewrite Hl.
    rewrite (find_first (fun entry : string * string =>
                           includes (toLowerCase userAgentHeader)
                                    (fst entry))
                        before after (keyword, format) Hb Hk).
    assert (Hin : In (keyword, format) uaMapping)
      by (rewrite Hl; apply in_or_app; right; now left).
    apply formatOrDefault_kept.
    apply truthy_nonempty. apply (uaMapping_nonempty _ Hin).
  - intros Hm Hflags Hua.
    apply truthy_false in Hm.
    rewrite (formatFromFlags_none _ _ Hm Hflags).
    unfold formatFromUserAgent. rewrite Hm. simpl negb. cbv iota zeta.
    rewrite (find_none _ _ Hua).
    unfold formatOrDefault. now rewrite Hm.
Qed.

End Negotiation.

(** C2 on four queries, one for each stage. *)
Lemma format_negotiation_witness :
  negotiateFormat [("clash", ""); ("target", "surge")] "Shadowrocket/1.2"
  = "surge"
  /\ negotiateFormat [("trojan", ""); ("loon", "")] "Shadowrocket/1.2"
     = "loon"
  /\ negotiateFormat [("token", "abc123")] "Shadowrocket/1.2" = "base64"
  /\ negotiateFormat [("token", "abc123")] "ClashX Meta/1.3" = "clash"
  /\ negotiateFormat [] "Unknown" = "base64".
Proof.
  split; [|split; [|split; [|split]]].
  - apply (proj1 (format_negotiation [("clash", ""); ("target", "surge")]
                    "Shadowrocket/1.2") "surge");
      [reflexivity|discriminate].
  - apply (proj1 (proj2 (format_negotiation [("trojan", ""); ("loon", "")]
                           "Shadowrocket/1.2"))
             (or_intror (or_introl eq_refl))
             ["clash"; "singbox"; "surge"] "loon"
             ["base64"; "v2ray"; "trojan"] eq_refl).
    + intros f Hf. simpl in Hf.
      repeat (destruct Hf as [<-|Hf]; [reflexivity|]). contradiction.
    + reflexivity.
  - refine (proj1 (proj2 (proj2 (format_negotiation [("token", "abc123")]
                                   "Shadowrocket/1.2")))
              (or_intror (or_introl eq_refl)) _
              (firstn 8 uaMapping) "shadowrocket" "base64"
              (skipn 9 uaMapping) eq_refl _ eq_refl).
    + intros f Hf. simpl in Hf.
      repeat (destruct Hf as [<-|Hf]; [reflexivity|]). contradiction.
    + intros e He. simpl in He.
      repeat (destruct He as [<-|He]; [reflexivity|]). contradiction.
  - refine (proj1 (proj2 (proj2 (format_negotiation [("token", "abc123")]
                                   "ClashX Meta/1.3")))
              (or_intror (or_introl eq_refl)) _
              (firstn 4 uaMapping) "meta" "clash"
              (skipn 5 uaMapping) eq_refl _ eq_refl).
    + intros f Hf. simpl in Hf.
      repeat (destruct Hf as [<-|Hf]; [reflexivity|]). contradiction.
    + intros e He. simpl in He.
      repeat (destruct He as [<-|He]; [reflexivity|]). contradiction.
  - apply (proj2 (proj2 (proj2 (format_negotiation [] "Unknown")))
             (or_intror (or_introl eq_refl))).
    + intros f Hf. simpl in Hf.
      repeat (destruct Hf as [<-|Hf]; [reflexivity|]). contradiction.
    + intros e He. simpl in He.
      repeat (destruct He as [<-|He]; [reflexivity|]). contradiction.
Defined.

(** C2 as stated fails on an empty [target]: the parameter is there, and the
    format is that of the flag, not the empty text. *)
Lemma empty_target_is_passed_over :
  SearchParams.get "target" [("target", ""); ("clash", "")] = val ""
  /\ negotiateFormat [("target", ""); ("clash", "")] "curl" = "clash"
  /\ negotiateFormat [("target", "")] "curl" = "base64".
Proof. repeat split. Qed.

(** ** The pipeline as a whole *)

Section Pipeline.

Variables (K : Collaborators) (S : Snapshot) (now : Z).

Lemma selectTargets_rejects token pid resp site :
  selectTargets K S now token pid = inl (resp, site) ->
  rejected site /\ site <> NotConfigured.
Proof.
  unfold selectTargets, rejected. intro H.
  destruct (truthy pid).
  - destruct (negb (truthy token)
              || negb (strict_eq token (Config.profileToken (config S)))).
    + injection H as _ <-. split; [auto|discriminate].
    + destruct (findProfile (allProfiles S) pid) as [p|].
      * destruct (negb (Profile.enabled p)); [|discriminate].
        injection H as _ <-. split; [auto|discriminate].
      * injection H as _ <-. split; [auto|discriminate].
  - destruct (negb (truthy token)
              || negb (strict_eq token (Config.mytoken (config S))));
      [|discriminate].
    injection H as _ <-. split; [auto|discriminate].
Qed.

Lemma respond_exit req token pid sel :
  ~ rejected (exit (respond K S req token pid sel)).
Proof.
  unfold respond, rejected. cbv zeta.
  destruct (negotiateFormat _ _ =? "base64"); simpl; [intuition discriminate|].
  destruct (strict_eq _ _); simpl; [intuition discriminate|].
  unfold relay.
  destruct (fetch K _) as [m|r]; simpl; [intuition discriminate|].
  destruct (negb (Response.ok r)); simpl; intuition discriminate.
Qed.

Lemma respond_scheduled req token pid sel :
  scheduled (respond K S req token pid sel)
  = notification K S req (or_else (Request.userAgent req) "Unknown")
      (negotiateFormat (Request.searchParams req)
                       (or_else (Request.userAgent req) "Unknown"))
      pid (subName sel).
Proof.
  unfold respond. cbv zeta.
  destruct (negotiateFormat _ _ =? "base64"); simpl; [reflexivity|].
  destruct (strict_eq _ _); simpl; [reflexivity|].
  destruct (relay K sel _). reflexivity.
Qed.

(** A request is either turned away, with nothing scheduled and nothing
    fetched, or answered by [respond] on what the selection left. *)
Lemma handle_cases req :
  (rejected (exit (handleMisubRequest K S now req))
   /\ scheduled (handleMisubRequest K S now req) = []
   /\ fetched (handleMisubRequest K S now req) = [])
  \/ (exists sel,
         selectTargets K S now (fst (resolveToken req))
                       (snd (resolveToken req)) = inr sel
         /\ blank (effectiveSubConverter sel) = false
         /\ handleMisubRequest K S now req
            = respond K S req (fst (resolveToken req))
                      (snd (resolveToken req)) sel).
Proof.
  unfold handleMisubRequest.
  destruct (resolveToken req) as [token pid]. simpl.
  destruct (selectTargets K S now token pid) as [[resp site]|sel] eqn:E.
  - left. simpl. apply selectTargets_rejects in E. tauto.
  - destruct (blank (effectiveSubConverter sel)) eqn:B.
    + left. simpl. unfold rejected. auto.
    + right. exists sel. auto.
Qed.

Lemma notification_suppressed req ua format pid name :
  SearchParams.has "callback_token" (Request.searchParams req) = true ->
  notification K S req ua format pid name = [].
Proof. intro H. unfold notification. now rewrite H. Qed.

Lemma notification_sent req ua format pid name :
  SearchParams.has "callback_token" (Request.searchParams req) = false ->
  exists clientIp additionalData,
    notification K S req ua format pid name
    = [Notify (config S) "🛰️ *订阅被访问*" clientIp additionalData].
Proof.
  intro H. unfold notification. rewrite H. simpl negb. cbv iota zeta.
  eexists. eexists. reflexivity.
Qed.

(** C8, amended.  A request whose query has a [callback_token] parameter
    schedules no notification, whatever the value of the parameter.  A
    request without the parameter schedules exactly one when it is not
    turned away (403, 404 or 500); a request that is turned away
    schedules none. *)
Theorem notification_scheduling (req : Request.t) :
  (SearchParams.has "callback_token" (Request.searchParams req) = true ->
   scheduled (handleMisubRequest K S now req) = [])
  /\ (SearchParams.has "callback_token" (Request.searchParams req) = false ->
      ~ rejected (exit (handleMisubRequest K S now req)) ->
      exists clientIp additionalData,
        scheduled (handleMisubRequest K S now req)
        = [Notify (config S) "🛰️ *订阅被访问*" clientIp additionalData])
  /\ (rejected (exit (handleMisubRequest K S now req)) ->
      scheduled (handleMisubRequest K S now req) = []).
Proof.
  destruct (handle_cases req) as [[Hr [Hs _]]|[sel [_ [_ ->]]]].
  - repeat split; auto. intros _ Hn. contradiction.
  - rewrite respond_scheduled. repeat split.
    + apply notification_suppressed.
    + intros Hc _. now apply notification_sent.
    + intro Hr. now apply respond_exit in Hr.
Qed.

End Pipeline.

(** C8 on the sample store: the converter's fetch of a callback URL with a
    stale token, and a client's plain request. *)
Lemma notification_scheduling_witness :
  scheduled (handleMisubRequest Sample.K Sample.S Sample.now
               (Sample.get "/abc123"
                  [("target", "base64"); ("callback_token", "stale")]
                  "subconverter")) = []
  /\ exists clientIp additionalData,
      scheduled (handleMisubRequest Sample.K Sample.S Sample.now
                   (Sample.get "/sub/abc123" [("clash", "")] "curl"))
      = [Notify Sample.cfg "🛰️ *订阅被访问*" clientIp additionalData].
Proof.
  split.
  - apply (proj1 (notification_scheduling Sample.K Sample.S Sample.now
                    (Sample.get "/abc123"
                       [("target", "base64"); ("callback_token", "stale")]
                       "subconverter"))).
    reflexivity.
  - apply (proj1 (proj2 (notification_scheduling Sample.K Sample.S Sample.now
                           (Sample.get "/sub/abc123" [("clash", "")]
                                       "curl")))).
    + reflexivity.
    + unfold rejected. simpl. intuition discriminate.
Defined.

(** C8 as stated fails on a request that is turned away: it has no
    [callback_token] parameter, and nothing is scheduled. *)
Lemma rejected_request_is_not_notified :
  SearchParams.has "callback_token" [("clash", "")] = false
  /\ exit (handleMisubRequest Sample.K Sample.S Sample.now
             (Sample.get "/sub/wrong" [("clash", "")] "curl")) = InvalidToken
  /\ scheduled (handleMisubRequest Sample.K Sample.S Sample.now
                  (Sample.get "/sub/wrong" [("clash", "")] "curl")) = [].
Proof. repeat split. Qed.

(** ** Expired profiles *)

Section Expiry.

Variables (K : Collaborators) (S : Snapshot) (now : Z).

Lemma handle_served req sel :
  selectTargets K S now (fst (resolveToken req)) (snd (resolveToken req))
  = inr sel ->
  blank (effectiveSubConverter sel) = false ->
  handleMisubRequest K S now req
  = respond K S req (fst (resolveToken req)) (snd (resolveToken req)) sel.
Proof.
  intros H B. unfold handleMisubRequest.
  destruct (resolveToken req) as [token pid]. simpl in *.
  now rewrite H, B.
Qed.

Lemma handle_unconfigured req sel :
  selectTargets K S now (fst (resolveToken req)) (snd (resolveToken req))
  = inr sel ->
  blank (effectiveSubConverter sel) = true ->
  handleMisubRequest K S now req
  = mkOutcome (errorResponse 500 "Subconverter backend is not configured.")
              NotConfigured [] [].
Proof.
  intros H B. unfold handleMisubRequest.
  destruct (resolveToken req) as [token pid]. simpl in *.
  now rewrite H, B.
Qed.

Lemma profileExpired_past profile d t :
  Profile.expiresAt profile = val d -> d <> "" ->
  dateValue K d = Some t -> (t < now)%Z ->
  profileExpired K now profile = true.
Proof.
  intros Hd Hne Ht Hlt. unfold profileExpired.
  rewrite Hd, (truthy_nonempty d Hne). simpl. rewrite Ht.
  apply Z.gtb_lt. lia.
Qed.

Lemma respond_base64 req token pid sel :
  negotiateFormat (Request.searchParams req)
                  (or_else (Request.userAgent req) "Unknown") = "base64" ->
  exit (respond K S req token pid sel) = Base64Output
  /\ response (respond K S req token pid sel)
     = textResponse
         (btoa_utf8
            (if isProfileExpired sel then join LF EXPIRED_NODES ++ LF
             else generateCombinedNodeList K req (config S)
                    (or_else (Request.userAgent req) "Unknown")
                    (targetMisubs sel)
                    (prependedContentForSubconverter K sel)
                    (if truthy pid then
                       match findProfile (allProfiles S) pid with
                       | Some profile => Profile.prefixSettings profile
                       | None => undefined
                       end
                     else null))).
Proof.
  intro H. unfold respond. cbv zeta. rewrite H. simpl. auto.
Qed.

(** C1, amended.  A request with the valid profile token for a profile
    that is found, enabled and has an [expiresAt] strictly in the past is
    given the four placeholder entries, in the order of the table and with
    the URIs as they stand there, whatever the profile lists in
    [subscriptions] and [manualNodes].  When a converter backend is
    configured and the negotiated format is base64, the response is a 200
    whose body decodes to the four URIs, each followed by a line break. *)
Theorem expired_profile_gets_placeholders
    (req : Request.t) (profile : Profile.t) (d : string) (t : Z) :
  let token := fst (resolveToken req) in
  let pid := snd (resolveToken req) in
  truthy pid = true ->
  token = Config.profileToken (config S) ->
  findProfile (allProfiles S) pid = Some profile ->
  Profile.enabled profile = true ->
  Profile.expiresAt profile = val d -> d <> "" ->
  dateValue K d = Some t -> (t < now)%Z ->
  exists sel,
    selectTargets K S now token pid = inr sel
    /\ isProfileExpired sel = true
    /\ targetMisubs sel = expiredEntries
    /\ map Entry.url (targetMisubs sel) = EXPIRED_NODES
    /\ map Entry.id (targetMisubs sel)
       = ["expired-node-0"; "expired-node-1"; "expired-node-2";
          "expired-node-3"]
    /\ (blank (effectiveSubConverter sel) = false ->
        negotiateFormat (Request.searchParams req)
                        (or_else (Request.userAgent req) "Unknown")
        = "base64" ->
        exit (handleMisubRequest K S now req) = Base64Output
        /\ Response.status (response (handleMisubRequest K S now req))
           = 200%Z
        /\ atob (Response.body (response (handleMisubRequest K S now req)))
           = Some (join LF EXPIRED_NODES ++ LF)).
Proof.
  intros token pid Hp Htok Hf En Hd Hne Ht Hlt.
  pose proof (resolveToken_profile req Hp) as Htruthy.
  pose proof (profileExpired_past profile d t Hd Hne Ht Hlt) as Hx.
  fold token in Htruthy.
  assert (Hsel : exists sel,
             selectTargets K S now token pid = inr sel
             /\ isProfileExpired sel = true
             /\ targetMisubs sel = expiredEntries).
  { unfold selectTargets. rewrite Hp, Htruthy, Hf, En, Hx.
    assert (E : strict_eq token (Config.profileToken (config S)) = true)
      by now apply strict_eq_true.
    rewrite E. simpl. eexists. split; [reflexivity|]. simpl. auto. }
  destruct Hsel as [sel [Hsel [Hexp Htargets]]].
  exists sel. split; [assumption|]. split; [assumption|].
  split; [assumption|]. rewrite Htargets.
  split; [reflexivity|]. split; [reflexivity|].
  intros Hb Hfmt.
  rewrite (handle_served req sel Hsel Hb).
  destruct (respond_base64 req token pid sel Hfmt) as [He Hr].
  fold token pid. rewrite He, Hr, Hexp.
  split; [reflexivity|]. split; [reflexivity|].
  apply expired_text_decodes.
Qed.

End Expiry.

(** C1 on the sample store: [promoA] ran out in 2020. *)
Lemma expired_profile_gets_placeholders_witness :
  exists sel,
    selectTargets Sample.K Sample.S Sample.now (val "profiles") (val "promoA")
    = inr sel
    /\ isProfileExpired sel = true
    /\ targetMisubs sel = expiredEntries
    /\ map Entry.url (targetMisubs sel) = EXPIRED_NODES
    /\ map Entry.id (targetMisubs sel)
       = ["expired-node-0"; "expired-node-1"; "expired-node-2";
          "expired-node-3"]
    /\ (blank (effectiveSubConverter sel) = false ->
        negotiateFormat [("target", "base64")] "curl" = "base64" ->
        exit (handleMisubRequest Sample.K Sample.S Sample.now
                (Sample.get "/sub/profiles/promoA" [("target", "base64")]
                            "curl")) = Base64Output
        /\ Response.status
             (response (handleMisubRequest Sample.K Sample.S Sample.now
                          (Sample.get "/sub/profiles/promoA"
                                      [("target", "base64")] "curl")))
           = 200%Z
        /\ atob (Response.body
                   (response (handleMisubRequest Sample.K Sample.S Sample.now
                                (Sample.get "/sub/profiles/promoA"
                                            [("target", "base64")] "curl"))))
           = Some (join LF EXPIRED_NODES ++ LF)).
Proof.
  apply (expired_profile_gets_placeholders Sample.K Sample.S Sample.now
           (Sample.get "/sub/profiles/promoA" [("target", "base64")] "curl")
           Sample.promoA "2020-01-01T00:00:00Z" 1577836800000%Z);
    try reflexivity.
  discriminate.
Defined.

(** C1 as stated fails where no converter backend is configured: the
    request is for an expired profile and asks for base64, and the answer
    is the 500 of line 138. *)
Lemma expired_profile_without_backend :
  (exists sel,
      selectTargets Sample.K Sample.S_unconfigured Sample.now
                    (val "profiles") (val "promoA") = inr sel
      /\ isProfileExpired sel = true)
  /\ negotiateFormat [("target", "base64")] "curl" = "base64"
  /\ Response.status
       (response (handleMisubRequest Sample.K Sample.S_unconfigured Sample.now
                    (Sample.get "/sub/profiles/promoA" [("target", "base64")]
                                "curl"))) = 500%Z
  /\ atob (Response.body
             (response (handleMisubRequest Sample.K Sample.S_unconfigured
                          Sample.now
                          (Sample.get "/sub/profiles/promoA"
                                      [("target", "base64")] "curl"))))
     <> Some (join LF EXPIRED_NODES ++ LF).
Proof.
  split; [eexists; split; reflexivity|].
  split; [reflexivity|]. split; [reflexivity|].
  vm_compute. discriminate.
Qed.

(** ** The callback parameter *)


Lemma get_filter_other (c name : string) (params : SearchParams.t) :
  name <> c ->
  SearchParams.get name (filter (fun p => negb (fst p =? c)) params)
  = SearchParams.get name params.
Proof.
  intro Hn. induction params as [|[n v] params IH]; simpl; [reflexivity|].
  destruct (String.eqb_spec n c) as [->|Hc]; simpl.
  - destruct (String.eqb_spec c name) as [E|_]; [congruence|exact IH].
  - now rewrite IH.
Qed.








Section CallbackParameter.

Variables (K : Collaborators) (S : Snapshot) (now : Z).

Lemma target_base64_negotiated params ua :
  SearchParams.get "target" params = val "base64" ->
  negotiateFormat params ua = "base64".
Proof.
  intro H. unfold negotiateFormat. cbv zeta. rewrite H.
  rewrite formatFromFlags_kept, formatFromUserAgent_kept,
    formatOrDefault_kept; reflexivity.
Qed.



End CallbackParameter.


(** ** The converter request *)

Lemma get_set_same (name value : string) (params : SearchParams.t) :
  SearchParams.get name (SearchParams.set name value params) = val value.
Proof.
  induction params as [|[n v] params IH]; simpl.
  - now rewrite String.eqb_refl.
  - destruct (String.eqb_spec n name) as [->|Hn]; simpl.
    + now rewrite String.eqb_refl.
    + destruct (String.eqb_spec n name); [contradiction|assumption].
Qed.

Lemma get_set_other (name other value : string) (params : SearchParams.t) :
  other <> name ->
  SearchParams.get other (SearchParams.set name value params)
  = SearchParams.get other params.
Proof.
  intro Ho. induction params as [|[n v] params IH]; simpl.
  - destruct (String.eqb_spec name other); [congruence|reflexivity].
  - destruct (String.eqb_spec n name) as [->|Hn]; simpl.
    + destruct (String.eqb_spec name other); [congruence|].
      apply get_filter_other. assumption.
    + destruct (String.eqb_spec n other); [reflexivity|assumption].
Qed.

Section Converter.

Variables (K : Collaborators) (S : Snapshot) (now : Z).


(** A request that reaches the converter has a format other than base64,
    and the one outbound request goes to [subconverterUrl]. *)
Lemma converter_is_called req :
  exit (handleMisubRequest K S now req) = ConverterOutput
  \/ exit (handleMisubRequest K S now req) = ConverterError ->
  exists sel,
    selectTargets K S now (fst (resolveToken req))
                  (snd (resolveToken req)) = inr sel
    /\ negotiateFormat (Request.searchParams req)
                       (or_else (Request.userAgent req) "Unknown")
       <> "base64"
    /\ fetched (handleMisubRequest K S now req)
       = [subconverterUrl sel
            (negotiateFormat (Request.searchParams req)
                             (or_else (Request.userAgent req) "Unknown"))
            (callbackUrl K req (fst (resolveToken req))
                         (snd (resolveToken req)))].
Proof.
  intro H.
  destruct (handle_cases K S now req) as [[Hr _]|[sel [Hs [_ E]]]].
  - unfold rejected in Hr. destruct H as [H|H]; rewrite H in Hr;
      intuition discriminate.
  - exists sel. split; [assumption|]. rewrite E in *. clear E.
    unfold respond in *. cbv zeta in *.
    destruct (negotiateFormat _ _ =? "base64") eqn:F.
    + simpl in H. destruct H; discriminate.
    + split; [intro F'; rewrite F' in F; discriminate|].
      destruct (strict_eq _ _).
      * simpl in H. destruct H; discriminate.
      * destruct (relay K sel _). reflexivity.
Qed.

End Converter.

(** C9 at the failing input: the profile [vip] has a backend and no
    [subConfig]; a clash request for it asks the converter with the
    parameter [config] set to the text [undefined]. *)
Theorem absent_config_is_sent_as_text :
  Profile.subConfig Sample.vip = undefined
  /\ exit (handleMisubRequest Sample.K Sample.S Sample.now
             (Sample.get "/sub/profiles/vip" [("target", "clash")] "curl"))
     = ConverterOutput
  /\ map (fun u => SearchParams.get "config" (Url.searchParams u))
         (fetched (handleMisubRequest Sample.K Sample.S Sample.now
                     (Sample.get "/sub/profiles/vip" [("target", "clash")]
                                 "curl")))
     = [val "undefined"].
Proof. repeat split. Qed.

(** ** The callback round trip *)

Lemma split_cons_sep (sep : ascii) (s : string) :
  split sep (String sep s) = "" :: split sep s.
Proof. simpl. now rewrite Ascii.eqb_refl. Qed.

Lemma split_no_sep (sep : ascii) (s : string) :
  ~ In sep (list_ascii_of_string s) -> split sep s = [s].
Proof.
  induction s as [|c s IH]; simpl; intro H; [reflexivity|].
  destruct (Ascii.eqb_spec c sep) as [->|_]; [exfalso; auto|].
  rewrite IH; auto.
Qed.

Lemma split_app_sep (sep : ascii) (s r : string) :
  ~ In sep (list_ascii_of_string s) ->
  split sep (s ++ String sep r) = s :: split sep r.
Proof.
  induction s as [|c s IH]; intro H.
  - apply split_cons_sep.
  - simpl in *. destruct (Ascii.eqb_spec c sep) as [->|_]; [exfalso; auto|].
    rewrite IH; auto.
Qed.

Lemma split_parts_no_sep (sep : ascii) (s part : string) :
  In part (split sep s) -> ~ In sep (list_ascii_of_string part).
Proof.
  revert part. induction s as [|c s IH]; simpl; intros part H.
  - destruct H as [<-|[]]. auto.
  - destruct (Ascii.eqb_spec c sep) as [->|Hc].
    + destruct H as [<-|H]; [auto|now apply IH].
    + destruct (split sep s) as [|h t] eqn:E.
      * destruct H as [<-|[]]. simpl. intros [E'|[]]. congruence.
      * destruct H as [<-|H].
        -- simpl. intros [E'|H']; [congruence|].
           revert H'. apply IH. now left.
        -- apply IH. now right.
Qed.

Lemma pathSegments_no_slash (pathname segment : string) :
  In segment (pathSegments pathname) ->
  ~ In "/"%char (list_ascii_of_string segment).
Proof.
  unfold pathSegments. intro H. apply filter_In in H. destruct H as [H _].
  now apply split_parts_no_sep in H.
Qed.

(** Only the token [sub] followed by a profile makes a callback path start
    with the segment that the handler strips. *)
Lemma sub_prefix_of_profile_path (t p : string) :
  ~ In "/"%char (list_ascii_of_string t) ->
  String.prefix "/sub/" (String "/" (t ++ String "/" p)) = true -> t = "sub".
Proof.
  intros Hs H. cbn [String.prefix] in H.
  destruct (ascii_dec "/" "/") as [_|N]; [|now elim N].
  destruct t as [|c1 t]; cbn [String.prefix String.append] in H.
  { destruct (ascii_dec "s" "/"); discriminate. }
  destruct (ascii_dec "s" c1) as [<-|]; [|discriminate H].
  destruct t as [|c2 t]; cbn [String.prefix String.append] in H.
  { destruct (ascii_dec "u" "/"); discriminate. }
  destruct (ascii_dec "u" c2) as [<-|]; [|discriminate H].
  destruct t as [|c3 t]; cbn [String.prefix String.append] in H.
  { destruct (ascii_dec "b" "/"); discriminate. }
  destruct (ascii_dec "b" c3) as [<-|]; [|discriminate H].
  destruct t as [|c4 t]; [reflexivity|].
  cbn [String.prefix String.append] in H.
  destruct (ascii_dec "/" c4) as [<-|]; [|discriminate H].
  exfalso. apply Hs. simpl. auto.
Qed.

Lemma sub_prefix_of_direct_path (t : string) :
  ~ In "/"%char (list_ascii_of_string t) ->
  String.prefix "/sub/" (String "/" t) = false.
Proof.
  intros Hs. cbn [String.prefix].
  destruct (ascii_dec "/" "/") as [_|N]; [|now elim N].
  destruct t as [|c1 t]; cbn [String.prefix]; [reflexivity|].
  destruct (ascii_dec "s" c1) as [<-|]; [|reflexivity].
  destruct t as [|c2 t]; cbn [String.prefix]; [reflexivity|].
  destruct (ascii_dec "u" c2) as [<-|]; [|reflexivity].
  destruct t as [|c3 t]; cbn [String.prefix]; [reflexivity|].
  destruct (ascii_dec "b" c3) as [<-|]; [|reflexivity].
  destruct t as [|c4 t]; cbn [String.prefix]; [reflexivity|].
  destruct (ascii_dec "/" c4) as [<-|]; [|reflexivity].
  exfalso. apply Hs. simpl. auto.
Qed.

Section RoundTrip.

Variables (K : Collaborators) (S : Snapshot) (now : Z).

Lemma resolveToken_segments (req : Request.t) :
  pathSegments (Request.pathname req) <> [] ->
  exists t, fst (resolveToken req) = val t /\ segment t
            /\ (snd (resolveToken req) = null
                \/ exists p, snd (resolveToken req) = val p /\ segment p).
Proof.
  unfold resolveToken, segment. intro Hne.
  pose proof (pathSegments_nonempty (Request.pathname req)) as H1.
  pose proof (pathSegments_no_slash (Request.pathname req)) as H2.
  destruct (pathSegments (Request.pathname req)) as [|t [|p l]];
    [contradiction| |]; simpl.
  - exists t. split; [reflexivity|]. split; [|now left].
    split; [apply H1|apply H2]; now left.
  - exists t. split; [reflexivity|]. split.
    + split; [apply H1|apply H2]; now left.
    + right. exists p. split; [reflexivity|].
      split; [apply H1|apply H2]; right; now left.
Qed.

(** The callback URL built for a token and a profile identifier read from
    a path leads back to them, unless the token is [sub] and a profile is
    named. *)
Lemma callback_path_resolves origin t pid ua ip country :
  segment t ->
  pid = null \/ (exists p, pid = val p /\ segment p /\ t <> "sub") ->
  resolveToken (callbackRequest K origin (val t) pid ua ip country)
  = (val t, pid).
Proof.
  intros [Hne Hs] Hp. unfold resolveToken, callbackRequest.
  cbn [Request.pathname Request.searchParams].
  destruct Hp as [->|[p [-> [[Hpne Hps] Hsub]]]].
  - change (callbackPath (val t) null) with (String "/" t).
    unfold pathSegments.
    rewrite (sub_prefix_of_direct_path t Hs), split_cons_sep,
      (split_no_sep "/" t Hs).
    simpl. destruct (String.eqb_spec t ""); [contradiction|reflexivity].
  - replace (callbackPath (val t) (val p))
      with (String "/" (t ++ String "/" p))
      by (unfold callbackPath; now rewrite (truthy_nonempty p Hpne)).
    unfold pathSegments.
    destruct (String.prefix "/sub/" (String "/" (t ++ String "/" p)))
      eqn:E.
    + apply sub_prefix_of_profile_path in E; [contradiction|assumption].
    + rewrite split_cons_sep, (split_app_sep "/" t p Hs),
        (split_no_sep "/" p Hps).
      simpl.
      destruct (String.eqb_spec t ""); [contradiction|].
      destruct (String.eqb_spec p ""); [contradiction|reflexivity].
Qed.

(** The round trip of the callback protocol: where the callback URL leads
    back to the token and the profile of a base64 request, and the
    node-list collaborator returns the same text for the converter's fetch
    as for that request, the two responses are the same. *)
Lemma callback_round_trip origin direct token pid ua ip country :
  resolveToken (callbackRequest K origin token pid ua ip country)
  = resolveToken direct ->
  negotiateFormat (Request.searchParams direct)
                  (or_else (Request.userAgent direct) "Unknown")
  = "base64" ->
  (forall cfg entries prepended prefix,
      generateCombinedNodeList K
        (callbackRequest K origin token pid ua ip country) cfg
        (or_else ua "Unknown") entries prepended prefix
      = generateCombinedNodeList K direct cfg
          (or_else (Request.userAgent direct) "Unknown")
          entries prepended prefix) ->
  response (handleMisubRequest K S now
              (callbackRequest K origin token pid ua ip country))
  = response (handleMisubRequest K S now direct).
Proof.
  intros Hr Hfmt Hcompose.
  assert (Hfmt' :
            negotiateFormat
              (Request.searchParams
                 (callbackRequest K origin token pid ua ip country))
              (or_else (Request.userAgent
                          (callbackRequest K origin token pid ua ip country))
                       "Unknown") = "base64")
    by (apply target_base64_negotiated; reflexivity).
  unfold handleMisubRequest. rewrite Hr.
  destruct (resolveToken direct) as [token' pid'].
  destruct (selectTargets K S now token' pid') as [[resp site]|sel];
    [reflexivity|].
  destruct (blank (effectiveSubConverter sel)); [reflexivity|].
  destruct (respond_base64 K S _ token' pid' sel Hfmt') as [_ ->].
  destruct (respond_base64 K S direct token' pid' sel Hfmt) as [_ ->].
  cbn [Request.userAgent callbackRequest].
  now rewrite Hcompose.
Qed.

(** X7.  The callback round trip for the token and profile of any request
    that has them in its path: the converter's fetch of the callback URL is
    answered like a base64 request for that token and profile, provided the
    node-list collaborator returns the same text for both, except where the
    token is [sub] and a profile is named. *)
Corollary callback_round_trip_from_path origin direct ua ip country :
  pathSegments (Request.pathname origin) <> [] ->
  ~ (fst (resolveToken origin) = val "sub"
     /\ snd (resolveToken origin) <> null) ->
  resolveToken direct = resolveToken origin ->
  negotiateFormat (Request.searchParams direct)
                  (or_else (Request.userAgent direct) "Unknown")
  = "base64" ->
  (forall cfg entries prepended prefix,
      generateCombinedNodeList K
        (callbackRequest K origin (fst (resolveToken origin))
                         (snd (resolveToken origin)) ua ip country) cfg
        (or_else ua "Unknown") entries prepended prefix
      = generateCombinedNodeList K direct cfg
          (or_else (Request.userAgent direct) "Unknown")
          entries prepended prefix) ->
  response (handleMisubRequest K S now
              (callbackRequest K origin (fst (resolveToken origin))
                               (snd (resolveToken origin)) ua ip country))
  = response (handleMisubRequest K S now direct).
Proof.
  intros Hpath Hsub Hsame Hfmt Hcompose.
  apply callback_round_trip; try assumption.
  rewrite Hsame.
  destruct (resolveToken_segments origin Hpath) as [t [Ht [Hseg Hp]]].
  rewrite (surjective_pairing (resolveToken origin)) at 3.
  rewrite Ht in *.
  destruct Hp as [Hp|[p [Hp Hpseg]]]; rewrite Hp in *.
  - apply callback_path_resolves; auto.
  - apply callback_path_resolves; [assumption|].
    right. exists p. repeat split; try apply Hpseg.
    intros ->. apply Hsub. split; [reflexivity|discriminate].
Qed.

End RoundTrip.

(** X7 on the sample store: the converter's fetch for the profile [vip]
    and a client's base64 request for it. *)
Example callback_round_trip_sample :
  response
    (handleMisubRequest Sample.K Sample.S Sample.now
       (callbackRequest Sample.K
          (Sample.get "/sub/profiles/vip" [("target", "clash")] "Clash")
          (val "profiles") (val "vip") (val "subconverter") null null))
  = response
      (handleMisubRequest Sample.K Sample.S Sample.now
         (Sample.get "/sub/profiles/vip" [("base64", "")] "v2rayN/6.0")).
Proof.
  apply (callback_round_trip_from_path Sample.K Sample.S Sample.now
           (Sample.get "/sub/profiles/vip" [("target", "clash")] "Clash")
           (Sample.get "/sub/profiles/vip" [("base64", "")] "v2rayN/6.0")
           (val "subconverter") null null);
    try reflexivity.
  - discriminate.
  - intros [H _]. discriminate H.
Defined.

(** C6 at the failing input: the profile token is [sub].  The clash request
    for the profile [vip] hands the converter the callback URL
    [/sub/vip?target=base64&callback_token=...]; the handler strips [/sub/]
    from that path, reads [vip] as a direct token and answers 403, while the
    base64 request for the same token and profile is answered with the node
    list. *)
Theorem callback_of_token_sub_is_turned_away :
  resolveToken (Sample.get "/sub/sub/vip" [("target", "clash")] "Clash")
  = (val "sub", val "vip")
  /\ map (fun u => SearchParams.get "url" (Url.searchParams u))
         (fetched (handleMisubRequest Sample.K Sample.S_sub Sample.now
                     (Sample.get "/sub/sub/vip" [("target", "clash")]
                                 "Clash")))
     = [val "https://misub.example/sub/vip?target=base64&callback_token=3f2a9c"]
  /\ Request.pathname
       (callbackRequest Sample.K
          (Sample.get "/sub/sub/vip" [("target", "clash")] "Clash")
          (val "sub") (val "vip") (val "subconverter") null null)
     = "/sub/vip"
  /\ resolveToken
       (callbackRequest Sample.K
          (Sample.get "/sub/sub/vip" [("target", "clash")] "Clash")
          (val "sub") (val "vip") (val "subconverter") null null)
     = (val "vip", null)
  /\ response
       (handleMisubRequest Sample.K Sample.S_sub Sample.now
          (callbackRequest Sample.K
             (Sample.get "/sub/sub/vip" [("target", "clash")] "Clash")
             (val "sub") (val "vip") (val "subconverter") null null))
     = errorResponse 403 "Invalid Token"
  /\ Response.status
       (response
          (handleMisubRequest Sample.K Sample.S_sub Sample.now
             (Sample.get "/sub/sub/vip" [("target", "base64")]
                         "subconverter"))) = 200%Z
  /\ Response.body
       (response
          (handleMisubRequest Sample.K Sample.S_sub Sample.now
             (Sample.get "/sub/sub/vip" [("target", "base64")]
                         "subconverter")))
     <> Response.body
          (response
             (handleMisubRequest Sample.K Sample.S_sub Sample.now
                (callbackRequest Sample.K
                   (Sample.get "/sub/sub/vip" [("target", "clash")] "Clash")
                   (val "sub") (val "vip") (val "subconverter") null null))).
Proof.
  repeat split. vm_compute. discriminate.
Qed.

(** ** Further properties of the handler *)

Lemma b64value_b64char (n : nat) :
  (n < 64)%nat -> b64value (b64char n) = Some n.
Proof.
  intro H. do 64 (destruct n as [|n]; [reflexivity|]). lia.
Qed.

Lemma b64char_not_pad (n : nat) :
  (n < 64)%nat -> Ascii.eqb (b64char n) "=" = false.
Proof.
  intro H. do 64 (destruct n as [|n]; [reflexivity|]). lia.
Qed.

Lemma div_of_pair (b hi lo : nat) :
  (lo < b)%nat -> ((hi * b + lo) / b = hi /\ (hi * b + lo) mod b = lo)%nat.
Proof.
  intro H. split.
  - symmetry. apply (Nat.div_unique _ _ _ lo); lia.
  - symmetry. apply (Nat.mod_unique _ _ hi); lia.
Qed.

Lemma sextets (x y z : nat) :
  (x < 256)%nat -> (y < 256)%nat -> (z < 256)%nat ->
  (x / 4 < 64 /\ (x mod 4) * 16 + y / 16 < 64
   /\ (y mod 16) * 4 + z / 64 < 64 /\ z mod 64 < 64
   /\ (x / 4) * 4 + ((x mod 4) * 16 + y / 16) / 16 = x
   /\ (((x mod 4) * 16 + y / 16) mod 16) * 16
      + ((y mod 16) * 4 + z / 64) / 4 = y
   /\ (((y mod 16) * 4 + z / 64) mod 4) * 64 + z mod 64 = z)%nat.
Proof.
  intros Hx Hy Hz.
  pose proof (Nat.div_mod_eq x 4). pose proof (Nat.mod_upper_bound x 4).
  pose proof (Nat.div_mod_eq y 16). pose proof (Nat.mod_upper_bound y 16).
  pose proof (Nat.div_mod_eq z 64). pose proof (Nat.mod_upper_bound z 64).
  set (xq := (x / 4)%nat) in *. set (xr := (x mod 4)%nat) in *.
  set (yq := (y / 16)%nat) in *. set (yr := (y mod 16)%nat) in *.
  set (zq := (z / 64)%nat) in *. set (zr := (z mod 64)%nat) in *.
  assert (yq < 16)%nat by lia. assert (zq < 4)%nat by lia.
  destruct (div_of_pair 16 xr yq) as [-> ->]; [lia|].
  destruct (div_of_pair 4 yr zq) as [-> ->]; [lia|].
  lia.
Qed.

Lemma atob_quad (n1 n2 n3 n4 : nat) (r t : string) :
  (n1 < 64)%nat -> (n2 < 64)%nat -> (n3 < 64)%nat -> (n4 < 64)%nat ->
  atob r = Some t ->
  atob (String (b64char n1) (String (b64char n2)
          (String (b64char n3) (String (b64char n4) r))))
  = Some (String (ascii_of_nat (n1 * 4 + n2 / 16))
            (String (ascii_of_nat ((n2 mod 16) * 16 + n3 / 4))
               (String (ascii_of_nat ((n3 mod 4) * 64 + n4)) t))).
Proof.
  intros H1 H2 H3 H4 Hr. cbn [atob].
  rewrite !b64value_b64char, !b64char_not_pad, Hr by assumption.
  reflexivity.
Qed.

Lemma atob_pad1 (n1 n2 n3 : nat) :
  (n1 < 64)%nat -> (n2 < 64)%nat -> (n3 < 64)%nat ->
  atob (String (b64char n1) (String (b64char n2)
          (String (b64char n3) "=")))
  = Some (String (ascii_of_nat (n1 * 4 + n2 / 16))
            (String (ascii_of_nat ((n2 mod 16) * 16 + n3 / 4)) "")).
Proof.
  intros H1 H2 H3. cbn [atob].
  rewrite !b64value_b64char, !b64char_not_pad by assumption.
  reflexivity.
Qed.

Lemma atob_pad2 (n1 n2 : nat) :
  (n1 < 64)%nat -> (n2 < 64)%nat ->
  atob (String (b64char n1) (String (b64char n2) "=="))
  = Some (String (ascii_of_nat (n1 * 4 + n2 / 16)) "").
Proof.
  intros H1 H2. cbn [atob].
  rewrite !b64value_b64char by assumption.
  reflexivity.
Qed.

(** [atob] undoes [btoa]. *)
Lemma atob_btoa (s : string) : atob (btoa s) = Some s.
Proof.
  assert (H : forall n s, (String.length s <= n)%nat ->
                          atob (btoa s) = Some s).
  { clear s. induction n as [|n IH]; intros s Hs.
    - destruct s; [reflexivity|simpl in Hs; lia].
    - destruct s as [|a [|b [|c r]]]; [reflexivity| | |].
      + cbn [btoa].
        pose proof (nat_ascii_bounded a) as Ha.
        destruct (sextets (nat_of_ascii a) 0 0 Ha) as [B1 [B2 [_ [_ [E1 _]]]]];
          try lia.
        change (0 / 16)%nat with 0%nat in *. rewrite Nat.add_0_r in *.
        rewrite atob_pad2 by assumption.
        now rewrite E1, ascii_nat_embedding.
      + cbn [btoa].
        pose proof (nat_ascii_bounded a) as Ha.
        pose proof (nat_ascii_bounded b) as Hb.
        destruct (sextets (nat_of_ascii a) (nat_of_ascii b) 0 Ha Hb)
          as [B1 [B2 [B3 [_ [E1 [E2 _]]]]]]; try lia.
        change (0 / 64)%nat with 0%nat in *. rewrite Nat.add_0_r in *.
        rewrite atob_pad1 by assumption.
        now rewrite E1, E2, !ascii_nat_embedding.
      + cbn [btoa].
        pose proof (nat_ascii_bounded a) as Ha.
        pose proof (nat_ascii_bounded b) as Hb.
        pose proof (nat_ascii_bounded c) as Hc.
        destruct (sextets (nat_of_ascii a) (nat_of_ascii b) (nat_of_ascii c)
                          Ha Hb Hc)
          as [B1 [B2 [B3 [B4 [E1 [E2 E3]]]]]].
        rewrite (atob_quad _ _ _ _ (btoa r) r) by
          (try assumption; apply IH; simpl in Hs; lia).
        now rewrite E1, E2, E3, !ascii_nat_embedding. }
  apply (H (String.length s)). lia.
Qed.

Lemma btoa_utf8_decodes (s : string) : atob (btoa_utf8 s) = Some s.
Proof. rewrite btoa_utf8_base64. apply atob_btoa. Qed.

Section Answers.

Variables (K : Collaborators) (S : Snapshot) (now : Z).

(** What [respond] does for a format other than base64. *)
Lemma respond_other_format req token pid sel :
  negotiateFormat (Request.searchParams req)
                  (or_else (Request.userAgent req) "Unknown") <> "base64" ->
  respond K S req token pid sel
  = let format := negotiateFormat (Request.searchParams req)
                    (or_else (Request.userAgent req) "Unknown") in
    let notified :=
      notification K S req (or_else (Request.userAgent req) "Unknown")
                   format pid (subName sel) in
    if strict_eq (SearchParams.get "callback_token"
                    (Request.searchParams req))
                 (val (getCallbackToken K))
    then mkOutcome (textResponse (btoa_utf8 (composedList K S req pid sel)))
                   CallbackOutput notified []
    else
      let target := subconverterUrl sel format (callbackUrl K req token pid) in
      mkOutcome (fst (relay K sel target)) (snd (relay K sel target))
                notified [target].
Proof.
  intro H. unfold respond. cbv zeta.
  destruct (String.eqb_spec
              (negotiateFormat (Request.searchParams req)
                 (or_else (Request.userAgent req) "Unknown")) "base64")
    as [E|_]; [contradiction|].
  destruct (strict_eq _ _); [reflexivity|].
  destruct (relay K sel _). reflexivity.
Qed.

Lemma relay_status sel u :
  (snd (relay K sel u) = ConverterError
   /\ Response.status (fst (relay K sel u)) = 502%Z
   /\ Response.headers (fst (relay K sel u)) = [])
  \/ (snd (relay K sel u) = ConverterOutput
      /\ (200 <= Response.status (fst (relay K sel u)) <= 299)%Z).
Proof.
  unfold relay. destruct (fetch K u) as [m|r]; simpl; [auto|].
  destruct (Response.ok r) eqn:O; simpl; [|auto].
  right. split; [reflexivity|]. unfold Response.ok in O.
  apply andb_true_iff in O. destruct O as [O1 O2].
  apply Z.leb_le in O1. apply Z.leb_le in O2. lia.
Qed.


End Answers.


Section EncodedOutput.

Variables (K : Collaborators) (S : Snapshot) (now : Z).

(** X9.  A response of the base64 branch or of the callback branch carries
    a body that base64-decodes to the text it was made from, byte for byte:
    the placeholder lines for an expired profile in the base64 branch, and
    the composed node list otherwise. *)
Theorem encoded_body_decodes (req : Request.t) :
  let o := handleMisubRequest K S now req in
  let token := fst (resolveToken req) in
  let pid := snd (resolveToken req) in
  exit o = Base64Output \/ exit o = CallbackOutput ->
  exists sel,
    selectTargets K S now token pid = inr sel
    /\ atob (Response.body (response o))
       = Some (if isProfileExpired sel then
                 match exit o with
                 | Base64Output => join LF EXPIRED_NODES ++ LF
                 | _ => composedList K S req pid sel
                 end
               else composedList K S req pid sel).
Proof.
  cbv zeta. intro H.
  destruct (handle_cases K S now req) as [[Hr _]|[sel [Hs [_ E]]]].
  - unfold rejected in Hr. destruct H as [H|H]; rewrite H in Hr;
      intuition discriminate.
  - exists sel. split; [assumption|]. rewrite E in *. clear E.
    destruct (String.eqb_spec
                (negotiateFormat (Request.searchParams req)
                   (or_else (Request.userAgent req) "Unknown")) "base64")
      as [F|F].
    + destruct (respond_base64 K S req (fst (resolveToken req))
                               (snd (resolveToken req)) sel F) as [-> ->].
      simpl. rewrite btoa_utf8_decodes.
      destruct (isProfileExpired sel); reflexivity.
    + rewrite (respond_other_format K S req (fst (resolveToken req))
                 (snd (resolveToken req)) sel F) in *.
      cbv zeta in *.
      destruct (strict_eq _ _); simpl in *.
      * rewrite btoa_utf8_decodes. now destruct (isProfileExpired sel).
      * destruct (relay_status K sel
                    (subconverterUrl sel
                       (negotiateFormat (Request.searchParams req)
                          (or_else (Request.userAgent req) "Unknown"))
                       (callbackUrl K req (fst (resolveToken req))
                                    (snd (resolveToken req)))))
          as [[R _]|[R _]]; rewrite R in H; destruct H; discriminate.
Qed.


End EncodedOutput.

(** X9 on the sample store: the base64 answer for the direct token. *)
Lemma encoded_body_decodes_witness :
  exists sel,
    selectTargets Sample.K Sample.S Sample.now (val "abc123") null = inr sel
    /\ atob (Response.body
               (response (handleMisubRequest Sample.K Sample.S Sample.now
                            (Sample.get "/sub/abc123" [("base64", "")]
                                        "curl"))))
       = Some (if isProfileExpired sel then
                 match exit (handleMisubRequest Sample.K Sample.S Sample.now
                               (Sample.get "/sub/abc123" [("base64", "")]
                                           "curl")) with
                 | Base64Output => join LF EXPIRED_NODES ++ LF
                 | _ => composedList Sample.K Sample.S
                          (Sample.get "/sub/abc123" [("base64", "")] "curl")
                          null sel
                 end
               else composedList Sample.K Sample.S
                      (Sample.get "/sub/abc123" [("base64", "")] "curl")
                      null sel).
Proof.
  apply (encoded_body_decodes Sample.K Sample.S Sample.now
           (Sample.get "/sub/abc123" [("base64", "")] "curl")).
  left. reflexivity.
Defined.


Lemma formatFromFlags_known params :
  formatFromFlags params (SearchParams.get "target" params)
  = SearchParams.get "target" params
  \/ exists format,
      formatFromFlags params (SearchParams.get "target" params) = val format
      /\ In format knownFormats
      /\ truthy (SearchParams.get "target" params) = false.
Proof.
  unfold formatFromFlags.
  destruct (truthy (SearchParams.get "target" params)) eqn:T; simpl negb;
    cbv iota; [now left|].
  destruct (find (fun format => SearchParams.has format params)
                 supportedFormats) as [format|] eqn:E; [|now left].
  right. apply find_some in E. destruct E as [Hin _].
  eexists. split; [reflexivity|]. split; [|reflexivity].
  simpl in Hin.
  repeat (destruct Hin as [<-|Hin]; [simpl; tauto|]). contradiction.
Qed.

Lemma formatFromUserAgent_known ua targetFormat :
  formatFromUserAgent ua targetFormat = targetFormat
  \/ exists format,
      formatFromUserAgent ua targetFormat = val format
      /\ In format knownFormats.
Proof.
  unfold formatFromUserAgent.
  destruct (truthy targetFormat); simpl negb; cbv iota zeta; [now left|].
  destruct (find (fun entry : string * string =>
                    includes (toLowerCase ua) (fst entry)) uaMapping)
    as [[keyword format]|] eqn:E; [|now left].
  right. apply find_some in E. destruct E as [Hin _].
  exists format. split; [reflexivity|].
  simpl in Hin.
  repeat (destruct Hin as [Hin|Hin];
          [injection Hin as _ <-; simpl; tauto|]).
  contradiction.
Qed.

Lemma knownFormats_nonempty format :
  In format knownFormats -> format <> "".
Proof.
  simpl. intros H E. subst.
  repeat (destruct H as [H|H]; [discriminate|]). contradiction.
Qed.

(** X10.  The negotiated format is never the empty text.  When the request
    names no format of its own (no [target] parameter, or an empty one), the
    negotiated format is one of clash, singbox, surge, loon, base64 and
    quanx, whatever the query and the User-Agent hold; v2ray and trojan are
    never the outcome of a flag. *)
Theorem negotiated_format_is_known
    (params : SearchParams.t) (userAgentHeader : string) :
  negotiateFormat params userAgentHeader <> ""
  /\ (missing (SearchParams.get "target" params) ->
      In (negotiateFormat params userAgentHeader) knownFormats).
Proof.
  unfold negotiateFormat. cbv zeta.
  assert (Hk : forall f, In f knownFormats ->
                         formatOrDefault (val f) = f).
  { intros f Hf. apply formatOrDefault_kept. apply truthy_nonempty.
    now apply knownFormats_nonempty. }
  destruct (formatFromFlags_known params) as [E|[f [E [Hf T]]]];
    rewrite E.
  - destruct (formatFromUserAgent_known userAgentHeader
                (SearchParams.get "target" params)) as [E'|[f [E' Hf]]];
      rewrite E'.
    + unfold formatOrDefault.
      destruct (truthy (SearchParams.get "target" params)) eqn:T; simpl.
      * apply truthy_val in T. destruct T as [t [-> Hne]].
        split; [exact Hne|].
        intros [H|[H|H]]; try discriminate. injection H as ->.
        contradiction.
      * split; [discriminate|]. intros _. simpl. tauto.
    + rewrite (Hk f Hf). split; [now apply knownFormats_nonempty|auto].
  - rewrite formatFromUserAgent_kept
      by (apply truthy_nonempty; now apply knownFormats_nonempty).
    rewrite (Hk f Hf). split; [now apply knownFormats_nonempty|auto].
Qed.

(** X10 on a query with a [trojan] flag and an empty [target]. *)
Lemma negotiated_format_is_known_witness :
  In (negotiateFormat [("target", ""); ("trojan", "")] "Quantumult%20X")
     knownFormats.
Proof.
  apply (proj2 (negotiated_format_is_known
                  [("target", ""); ("trojan", "")] "Quantumult%20X")).
  right. right. reflexivity.
Defined.

Lemma blank_unconfigured (v : JsStr) : blank v = true <-> unconfigured v.
Proof.
  unfold blank, unconfigured. destruct v as [| |s]; simpl.
  - split; auto.
  - split; auto.
  - destruct (String.eqb_spec s "") as [->|Hne]; simpl.
    + split; [|reflexivity]. intros _. right. right.
      exists "". split; reflexivity.
    + destruct (String.eqb_spec (trim s) "") as [E|E].
      * split; [|reflexivity]. intros _. right. right. now exists s.
      * split; [discriminate|].
        intros [H|[H|[s' [H H']]]]; try discriminate.
        injection H as ->. contradiction.
Qed.

Lemma resolveToken_identifier (req : Request.t) (P : string) :
  snd (resolveToken req) = val P -> P <> "".
Proof.
  unfold resolveToken.
  pose proof (pathSegments_nonempty (Request.pathname req)) as H.
  destruct (pathSegments (Request.pathname req)) as [|t [|p l]]; simpl;
    try discriminate.
  intro E. injection E as <-. apply H. right. now left.
Qed.

Lemma findProfile_answersTo (P : string) (p : Profile.t) :
  P <> "" ->
  ((truthy (Profile.customId p)
    && strict_eq (Profile.customId p) (val P))
   || strict_eq (val (Profile.id p)) (val P)) = true
  <-> answersTo P p.
Proof.
  intro Hne. unfold answersTo.
  rewrite orb_true_iff, andb_true_iff, !strict_eq_true. split.
  - intros [[_ H]|H]; [now right|left; congruence].
  - intros [H|H]; [right; congruence|left].
    split; [|assumption]. rewrite H. now apply truthy_nonempty.
Qed.

Section Refusals.

Variables (K : Collaborators) (S : Snapshot) (now : Z).

(** X1.  A request with the valid profile token is answered 404, with
    nothing scheduled and nothing fetched, when no stored profile has the
    identifier as its [id] or [customId], and also when the first stored
    profile that has it is disabled, whatever profiles follow in the
    store. *)
Theorem unknown_profile_is_404 (req : Request.t) (P : string) :
  snd (resolveToken req) = val P ->
  fst (resolveToken req) = Config.profileToken (config S) ->
  (forall p, In p (allProfiles S) -> ~ answersTo P p)
  \/ (exists before p after,
         allProfiles S = (before ++ p :: after)%list
         /\ (forall q, In q before -> ~ answersTo P q)
         /\ answersTo P p
         /\ Profile.enabled p = false) ->
  handleMisubRequest K S now req
  = mkOutcome (errorResponse 404 "Profile not found or disabled")
              ProfileNotFound [] [].
Proof.
  intros Hp Ht Hstore.
  pose proof (resolveToken_identifier req P Hp) as Hne.
  assert (Htruthy : truthy (snd (resolveToken req)) = true)
    by (rewrite Hp; now apply truthy_nonempty).
  pose proof (resolveToken_profile req Htruthy) as Htok.
  apply handle_rejected_by_selection.
  unfold selectTargets. rewrite Htruthy, Htok.
  assert (E : strict_eq (fst (resolveToken req))
                        (Config.profileToken (config S)) = true)
    by now apply strict_eq_true.
  rewrite E. simpl. rewrite Hp. unfold findProfile.
  destruct Hstore as [Hnone|[before [p [after [Hl [Hb [Hm Hoff]]]]]]].
  - rewrite find_none; [reflexivity|].
    intros p Hin. specialize (Hnone p Hin).
    destruct (_ || _) eqn:B; [|reflexivity].
    apply (findProfile_answersTo P p Hne) in B. contradiction.
  - rewrite Hl, (find_first _ before after p).
    + now rewrite Hoff.
    + intros q Hq. specialize (Hb q Hq).
      destruct (_ || _) eqn:B; [|reflexivity].
      apply (findProfile_answersTo P q Hne) in B. contradiction.
    + now apply (findProfile_answersTo P p Hne).
Qed.

(** X2.  An authorized request is answered 500, with nothing scheduled and
    nothing fetched, exactly when the effective converter backend is
    absent, empty or white space only; this holds for every format, base64
    included. *)
Theorem blank_backend_is_500 (req : Request.t) (sel : Selection) :
  selectTargets K S now (fst (resolveToken req)) (snd (resolveToken req))
  = inr sel ->
  (unconfigured (effectiveSubConverter sel) ->
   handleMisubRequest K S now req
   = mkOutcome (errorResponse 500 "Subconverter backend is not configured.")
               NotConfigured [] [])
  /\ (exit (handleMisubRequest K S now req) = NotConfigured ->
      unconfigured (effectiveSubConverter sel)).
Proof.
  intro Hs. split.
  - intro H. apply blank_unconfigured in H.
    now apply (handle_unconfigured K S now req sel).
  - intro H. apply blank_unconfigured.
    destruct (blank (effectiveSubConverter sel)) eqn:B; [reflexivity|].
    rewrite (handle_served K S now req sel Hs B) in H.
    exfalso.
    apply (respond_exit K S req (fst (resolveToken req))
                        (snd (resolveToken req)) sel).
    rewrite H. unfold rejected. auto.
Qed.

(** X12.  A profile whose [subConverter] is absent (undefined or null) is
    never served: a request for it with the valid profile token is answered
    500 whatever backend the settings hold, because the absent value is
    taken as the effective backend. *)
Theorem profile_without_backend_is_500
    (req : Request.t) (profile : Profile.t) :
  truthy (snd (resolveToken req)) = true ->
  fst (resolveToken req) = Config.profileToken (config S) ->
  findProfile (allProfiles S) (snd (resolveToken req)) = Some profile ->
  Profile.enabled profile = true ->
  Profile.subConverter profile = undefined
  \/ Profile.subConverter profile = null ->
  handleMisubRequest K S now req
  = mkOutcome (errorResponse 500 "Subconverter backend is not configured.")
              NotConfigured [] [].
Proof.
  intros Hp Ht Hf En Habsent.
  pose proof (resolveToken_profile req Hp) as Htok.
  assert (E : strict_eq (fst (resolveToken req))
                        (Config.profileToken (config S)) = true)
    by now apply strict_eq_true.
  eapply handle_unconfigured.
  - unfold selectTargets. rewrite Hp, Htok, E, Hf, En. reflexivity.
  - simpl. destruct Habsent as [-> | ->]; reflexivity.
Qed.

End Refusals.

(** X1 on the store with the twins: an identifier no profile has, and one
    whose first holder is switched off. *)
Lemma unknown_profile_is_404_witness :
  Response.status
    (response (handleMisubRequest Sample.K Upstream.S_more Sample.now
                 (Sample.get "/sub/profiles/nobody" [] "curl"))) = 404%Z
  /\ Response.status
       (response (handleMisubRequest Sample.K Upstream.S_more Sample.now
                    (Sample.get "/sub/profiles/twin" [] "curl"))) = 404%Z.
Proof.
  split.
  - rewrite (unknown_profile_is_404 Sample.K Upstream.S_more Sample.now
               (Sample.get "/sub/profiles/nobody" [] "curl") "nobody"
               eq_refl eq_refl).
    + reflexivity.
    + left. intros p Hin. simpl in Hin. unfold answersTo.
      repeat (destruct Hin as [<-|Hin];
              [simpl; intuition discriminate|]).
      contradiction.
  - rewrite (unknown_profile_is_404 Sample.K Upstream.S_more Sample.now
               (Sample.get "/sub/profiles/twin" [] "curl") "twin"
               eq_refl eq_refl).
    + reflexivity.
    + right. exists [Upstream.plain], Upstream.off, [Upstream.twin].
      split; [reflexivity|]. split.
      * intros q [<-|[]]. unfold answersTo. simpl. intuition discriminate.
      * split; [right|]; reflexivity.
Defined.

(** X2 on the store whose backend is three spaces: the direct token, asking
    for base64. *)
Lemma blank_backend_is_500_witness :
  handleMisubRequest Sample.K Upstream.S_spaces Sample.now
    (Sample.get "/sub/abc123" [("target", "base64")] "curl")
  = mkOutcome (errorResponse 500 "Subconverter backend is not configured.")
              NotConfigured [] [].
Proof.
  apply (proj1 (blank_backend_is_500 Sample.K Upstream.S_spaces Sample.now
                  (Sample.get "/sub/abc123" [("target", "base64")] "curl")
                  _ eq_refl)).
  right. right. exists "   ". split; reflexivity.
Defined.

(** X12 on the store with the profile [plain], which has no overrides. *)
Lemma profile_without_backend_is_500_witness :
  Config.subConverter (config Upstream.S_more) = val "sub.example.com"
  /\ handleMisubRequest Sample.K Upstream.S_more Sample.now
       (Sample.get "/sub/profiles/plain" [("target", "base64")] "curl")
     = mkOutcome
         (errorResponse 500 "Subconverter backend is not configured.")
         NotConfigured [] [].
Proof.
  split; [reflexivity|].
  apply (profile_without_backend_is_500 Sample.K Upstream.S_more Sample.now
           (Sample.get "/sub/profiles/plain" [("target", "base64")] "curl")
           Upstream.plain);
    try reflexivity.
  now left.
Defined.

Lemma headers_set_lookup (name value other : string) (h : Headers.t) :
  SearchParams.get name (SearchParams.set name value h) = val value
  /\ (other <> name ->
      SearchParams.get other (SearchParams.set name value h)
      = SearchParams.get other h).
Proof.
  split; [apply get_set_same|apply get_set_other].
Qed.

Section ConverterCall.

Variables (K : Collaborators) (S : Snapshot) (now : Z).





End ConverterCall.




Lemma split_join (l : list string) :
  l <> [] ->
  Forall (fun s => ~ In "/"%char (list_ascii_of_string s)) l ->
  split "/" (join "/" l) = l.
Proof.
  induction l as [|x [|y r] IH]; intros Hne Hl; [contradiction| |].
  - inversion Hl; subst. now apply split_no_sep.
  - inversion Hl; subst.
    change (join "/" (x :: y :: r))
      with (x ++ String "/" (join "/" (y :: r))).
    rewrite split_app_sep by assumption.
    rewrite IH; [reflexivity|discriminate|assumption].
Qed.

Lemma filter_segments (l : list string) :
  Forall segment l -> filter (fun s => negb (s =? "")) l = l.
Proof.
  induction 1 as [|x l [Hx _] _ IH]; simpl; [reflexivity|].
  destruct (String.eqb_spec x ""); [contradiction|]. simpl. now rewrite IH.
Qed.

Lemma prefix_append (p s : string) : String.prefix p (p ++ s) = true.
Proof.
  induction p as [|c p IH]; cbn [String.prefix String.append].
  - destruct s; reflexivity.
  - destruct (ascii_dec c c) as [_|N]; [exact IH|now elim N].
Qed.

Lemma pathSegments_join (l : list string) :
  Forall segment l -> pathSegments ("/sub/" ++ join "/" l) = l.
Proof.
  intro Hl. unfold pathSegments.
  rewrite prefix_append.
  change (drop 5 ("/sub/" ++ join "/" l)) with (join "/" l).
  rewrite split_cons_sep. simpl filter.
  destruct l as [|x l]; [reflexivity|].
  rewrite split_join.
  - now apply filter_segments.
  - discriminate.
  - eapply Forall_impl; [|exact Hl]. intros s [_ H]. exact H.
Qed.

(** X6.  A path [/sub/s1/s2/...] made of segments that are not empty and
    hold no slash resolves to exactly those segments: the token is the
    first and the profile identifier the second, further segments are
    ignored, and the [token] parameter of the query is not read.  Only a
    path without segments takes the token from the query, and then no
    profile is named. *)
Theorem path_tokens_resolve :
  (forall l, Forall segment l -> pathSegments ("/sub/" ++ join "/" l) = l)
  /\ (forall req t,
         segment t -> Request.pathname req = "/sub/" ++ t ->
         resolveToken req = (val t, null))
  /\ (forall req t p rest,
         Forall segment (t :: p :: rest) ->
         Request.pathname req = "/sub/" ++ join "/" (t :: p :: rest) ->
         resolveToken req = (val t, val p))
  /\ (forall req params,
         pathSegments (Request.pathname req) <> [] ->
         resolveToken (withSearchParams req params) = resolveToken req)
  /\ (forall req,
         pathSegments (Request.pathname req) = [] ->
         resolveToken req
         = (SearchParams.get "token" (Request.searchParams req), null)).
Proof.
  split; [exact pathSegments_join|]. split; [|split; [|split]].
  - intros req t Ht Hp. unfold resolveToken.
    rewrite Hp. change t with (join "/" [t]) at 1.
    rewrite pathSegments_join; [reflexivity|]. now constructor.
  - intros req t p rest Hl Hp. unfold resolveToken.
    now rewrite Hp, pathSegments_join.
  - intros req params Hne. unfold resolveToken. simpl.
    destruct (pathSegments (Request.pathname req)) as [|t [|p l]];
      [contradiction| |]; reflexivity.
  - intros req He. unfold resolveToken. now rewrite He.
Qed.

(** X6 on three paths. *)
Lemma path_tokens_resolve_witness :
  pathSegments ("/sub/" ++ join "/" ["sub"; "vip"; "extra"])
  = ["sub"; "vip"; "extra"]
  /\ resolveToken (Sample.get "/sub/profiles/vip/extra"
                              [("token", "abc123")] "curl")
     = (val "profiles", val "vip")
  /\ resolveToken (Sample.get "/sub/" [("token", "abc123")] "curl")
     = (val "abc123", null).
Proof.
  assert (Hseg : forall s,
             (s =? "") = false ->
             existsb (Ascii.eqb "/") (list_ascii_of_string s) = false ->
             segment s).
  { intros s H1 H2. split.
    - intros ->. discriminate.
    - intro Hin.
      assert (E : existsb (Ascii.eqb "/") (list_ascii_of_string s) = true)
        by (apply existsb_exists; exists "/"%char;
            split; [assumption|apply Ascii.eqb_refl]).
      congruence. }
  destruct path_tokens_resolve as [H1 [_ [H3 [_ H5]]]].
  split; [|split].
  - apply H1. repeat constructor; apply Hseg; reflexivity.
  - apply (H3 _ "profiles" "vip" ["extra"]); [|reflexivity].
    repeat constructor; apply Hseg; reflexivity.
  - apply H5. reflexivity.
Defined.

Section Forbidden.

Variables (K : Collaborators) (S : Snapshot) (now : Z).

(** X13.  The status 403 is given for an invalid token only: when a
    response has status 403, the token of the request is missing or differs
    from the configured token of its mode.  In particular a converter
    answer is never passed on as a 403. *)
Theorem forbidden_only_for_invalid_token (req : Request.t) :
  let token := fst (resolveToken req) in
  let pid := snd (resolveToken req) in
  Response.status (response (handleMisubRequest K S now req)) = 403%Z ->
  missing token
  \/ token <> (if truthy pid then Config.profileToken (config S)
               else Config.mytoken (config S)).
Proof.
  cbv zeta. unfold handleMisubRequest.
  destruct (resolveToken req) as [token pid]. simpl fst. simpl snd.
  destruct (selectTargets K S now token pid) as [[resp site]|sel] eqn:E.
  - unfold selectTargets in E. destruct (truthy pid).
    + destruct (truthy token) eqn:T;
        [|intros _; left; now apply truthy_false].
      destruct (strict_eq token (Config.profileToken (config S))) eqn:Q;
        [|intros _; right; now apply strict_eq_false].
      simpl in E.
      destruct (findProfile (allProfiles S) pid) as [p|].
      * destruct (negb (Profile.enabled p)); [|discriminate].
        injection E as <- <-. simpl. discriminate.
      * injection E as <- <-. simpl. discriminate.
    + destruct (truthy token) eqn:T;
        [|intros _; left; now apply truthy_false].
      destruct (strict_eq token (Config.mytoken (config S))) eqn:Q;
        [|intros _; right; now apply strict_eq_false].
      discriminate.
  - destruct (blank (effectiveSubConverter sel)); [simpl; discriminate|].
    destruct (String.eqb_spec
                (negotiateFormat (Request.searchParams req)
                   (or_else (Request.userAgent req) "Unknown")) "base64")
      as [F|F].
    + destruct (respond_base64 K S req token pid sel F) as [_ ->].
      simpl. discriminate.
    + rewrite (respond_other_format K S req token pid sel F). cbv zeta.
      destruct (strict_eq _ _); simpl; [discriminate|].
      destruct (relay_status K sel
                  (subconverterUrl sel
                     (negotiateFormat (Request.searchParams req)
                        (or_else (Request.userAgent req) "Unknown"))
                     (callbackUrl K req token pid)))
        as [[_ [-> _]]|[_ B]]; [discriminate|lia].
Qed.

End Forbidden.

(** X13 on the sample store: a 403, and the token that caused it. *)
Lemma forbidden_only_for_invalid_token_witness :
  missing (val "wrong") \/ val "wrong" <> Config.mytoken Sample.cfg.
Proof.
  exact (forbidden_only_for_invalid_token Sample.K Sample.S Sample.now
           (Sample.get "/sub/wrong" [("clash", "")] "curl") eq_refl).
Defined.
